(** * Expense manager: approval workflow, record store and currency conversion

    A shallow embedding of the server routes of the expense manager
    (the Hono application with its key-value store), of the client-side
    [convertCurrency] helper, of the API client and of the expense form's
    [handleSubmit], together with the properties the specification states
    about them.

    Conventions.
    - JavaScript numbers are IEEE 754 binary64 values: Rocq's primitive
      floats.  [Math_round] is ECMAScript's [Math.round].
    - A JSON value is a [value]; JavaScript's [undefined] is [None] in
      [option value] (a [jsval]).  A string is a sequence of code units;
      Rocq's strings have 256 of them, and what is stated is stated of the
      strings over these.
    - What crosses the wire is JSON: the body of a response is the JSON of
      the value that the route answers, in which [NaN] and the infinities
      have become [null] and [-0] has become [0] ([json]).  A parsed body can
      hold [-0] and, for a numeral such as [1e999], an infinity.  The record
      store, whose contract is the specification's, gives back the value
      that was set.
    - An object is a finite map from property names to values.  Property
      order is not modelled.  The records of the store and the request
      bodies are parsed JSON: the routes read them under fixed names
      ([status], [email], ...), none of which [Object.prototype] has, so
      these reads see own properties only.  ToString in a template literal
      does go through the prototype chain, and an own [toString] property
      shadows the inherited method there ([ToString]).  The rate table is
      indexed with the strings of the URL, so its lookups reach
      [Object.prototype] as well ([Object_prototype]).
    - An evaluation ends normally or throws ([completion]).  A route handler
      is a computation over the record store that may throw; the
      [try]/[catch] of every route turns a throw into a 500 response and
      keeps the writes made before it. *)

From Stdlib Require Import ZArith Floats SpecFloat.
From stdpp Require Import gmap strings pretty list fin_maps.

#[local] Set Warnings "-inexact-float,-register-all".
#[local] Open Scope Z_scope.

(** ** JavaScript numbers *)

Module Number.

(** The float that an integer of magnitude at most 2^53 denotes. *)
Definition of_Z (n : Z) : float :=
  match n with
  | Z0 => 0%float
  | Zpos _ => PrimFloat.of_uint63 (Uint63.of_Z n)
  | Zneg p => (- PrimFloat.of_uint63 (Uint63.of_Z (Zpos p)))%float
  end.

(** [Math.round(x)]: [x] itself when it is not finite or is integral; else
    the integer closest to [x], the larger one on a tie; a result of zero
    keeps the sign of [x].  A finite [x] is [(-1)^s * m * 2^e]; for [e < 0]
    the closest integer is [floor ((2 * (+-m) + 2^-e) / 2^(1-e))]. *)
Definition Math_round (x : float) : float :=
  match Prim2SF x with
  | S754_finite s m e =>
      if 0 <=? e then x
      else
        let k := - e in
        let num := if s then Zneg m else Zpos m in
        let n := Z.shiftr (2 * num + 2 ^ k) (k + 1) in
        if n =? 0 then (if s then (-0)%float else 0%float) else of_Z n
  | _ => x
  end.

(** ToBoolean on a number: [0], [-0] and [NaN] are falsy. *)
Definition truthy (x : float) : bool :=
  negb (PrimFloat.eqb x 0%float || PrimFloat.is_nan x).

(** The idiom [Math.round(y * 100) / 100]. *)
Definition round2 (y : float) : float :=
  (Math_round (y * 100) / 100)%float.

End Number.

(** ** JSON values and the JavaScript operations the routes use *)

Inductive value : Type :=
  | VNull
  | VBool (b : bool)
  | VNum (x : float)
  | VStr (s : string)
  | VArr (elements : list value)
  | VObj (fields : gmap string value).

(** A JavaScript value: a JSON value or [undefined]. *)
Abbreviation jsval := (option value).

(** ToBoolean, as used by [if (x)], [!x], [x && y] and [x || y]. *)
Definition truthy (v : jsval) : bool :=
  match v with
  | None | Some VNull => false
  | Some (VBool b) => b
  | Some (VNum x) => Number.truthy x
  | Some (VStr s) => negb (String.eqb s "")
  | Some (VArr _) | Some (VObj _) => true
  end.

(** [v || null] *)
Definition or_null (v : jsval) : value :=
  match v with
  | Some x => if truthy v then x else VNull
  | None => VNull
  end.

(** The own enumerable properties that an object spread [{...v}] copies:
    those of an object, the elements of an array and the characters of a
    string under their indices, none for the other values. *)
Definition spread (v : jsval) : gmap string value :=
  match v with
  | Some (VObj fields) => fields
  | Some (VArr elements) => list_to_map (imap (λ i x, (pretty i, x)) elements)
  | Some (VStr s) =>
      list_to_map (imap (λ i c, (pretty i, VStr (String c ""))) (String.list_ascii_of_string s))
  | _ => ∅
  end.

(** A property [name: v] of an object literal once the object is serialised
    as JSON: a property whose value is [undefined] is left out. *)
Definition set_prop (name : string) (v : jsval) (fields : gmap string value) :
    gmap string value :=
  match v with
  | Some x => <[name := x]> fields
  | None => delete name fields
  end.

(** The read [v.name] of a value that is neither [null] nor [undefined], for
    the property names the routes read ([employee_id], [manager_id],
    [expense_id], [email], [status], [comments], [convertedAmount]): none of
    them is an index, [length] or a prototype member, so only an object has
    one. *)
Definition own_property (v : value) (name : string) : jsval :=
  match v with
  | VObj fields => fields !! name
  | _ => None
  end.

(** A number as JSON carries it: [NaN] and the infinities become [null],
    [-0] becomes [0]. *)
Definition json_number (x : float) : value :=
  if PrimFloat.is_nan x || PrimFloat.is_infinity x then VNull
  else if PrimFloat.is_zero x then VNum 0%float
  else VNum x.

(** A value as [JSON.stringify] writes it and the reader parses it back:
    the numbers inside are carried as [json_number] says. *)
Fixpoint json (v : value) : value :=
  match v with
  | VNum x => json_number x
  | VArr elements => VArr (json <$> elements)
  | VObj fields => VObj (json <$> fields)
  | _ => v
  end.

(** ** Responses and handlers *)

(** A response: its status and the JSON value of its body. *)
Record response : Type := Response { code : Z; body : jsval }.

(** [c.json(v)] and [c.json(v, status)]: the body is the JSON of [v]. *)
Definition c_json (v : jsval) : response := Response 200 (json <$> v).
Definition c_json_status (v : jsval) (status : Z) : response :=
  Response status (json <$> v).

(** [{ error: msg }] *)
Definition error_body (msg : string) : jsval :=
  Some (VObj {[ "error" := VStr msg ]}).

(** How an evaluation ends: with a value, or by throwing. *)
Inductive completion (A : Type) : Type :=
  | Normal (a : A)
  | Thrown.
Arguments Normal {A} a.
Arguments Thrown {A}.

#[global] Instance completion_ret : MRet completion := @Normal.
#[global] Instance completion_bind : MBind completion :=
  λ A B f m,
    match m with
    | Normal a => f a
    | Thrown => Thrown
    end.

(** A computation over the record store.  The store reached is returned in
    both cases: a throw undoes no write. *)
Definition Handler (A : Type) : Type :=
  gmap string value → completion A * gmap string value.

#[global] Instance Handler_ret : MRet Handler :=
  λ A a kv, (Normal a, kv).
#[global] Instance Handler_bind : MBind Handler :=
  λ A B f m kv,
    match m kv with
    | (Normal a, kv') => f a kv'
    | (Thrown, kv') => (Thrown, kv')
    end.

(** An evaluation that does not touch the store. *)
Definition evaluate {A : Type} (c : completion A) : Handler A := λ kv, (c, kv).

Definition throw {A : Type} : Handler A := evaluate Thrown.

(** [try { ... } catch (error) { return c.json({ error: msg }, 500) }] *)
Definition try_catch (block : Handler response) (msg : string)
    (kv : gmap string value) : response * gmap string value :=
  match block kv with
  | (Normal r, kv') => (r, kv')
  | (Thrown, kv') => (c_json_status (error_body msg) 500, kv')
  end.

(** [v.name]: a TypeError when [v] is [null] or [undefined]. *)
Definition member (v : jsval) (name : string) : Handler jsval :=
  match v with
  | None | Some VNull => throw
  | Some x => mret (own_property x name)
  end.

(** ** Record store *)

(** The server imports [kv_store.tsx] as [kv]; the file is not among the
    sources.  Its contract is section 4.1 of the specification: [get(key)]
    gives the value or absent, [set(key, value)] and [delete(key)] succeed,
    and there is nothing atomic across keys.  The failure of the underlying
    store, which would surface as a throw, is not modelled. *)
Module kv.

(** Modelled from the spec: [kv.get] of the missing [kv_store.tsx],
    [get(key) -> value|absent]. *)
Definition get (key : string) : Handler jsval :=
  λ kv, (Normal (kv !! key), kv).

(** Modelled from the spec: [kv.set] of the missing [kv_store.tsx],
    [set(key, value) -> ok]. *)
Definition set (key : string) (v : value) : Handler unit :=
  λ kv, (Normal tt, <[key := v]> kv).

(** Modelled from the spec: [kv.del] of the missing [kv_store.tsx],
    [delete(key) -> ok]. *)
Definition del (key : string) : Handler unit :=
  λ kv, (Normal tt, delete key kv).

(** Modelled from the spec: [kv.getByPrefix] of the missing [kv_store.tsx],
    [scanByPrefix(prefix) -> sequence of values, order unspecified].  The
    order in which the map lists its keys stands for the unspecified one;
    what is proved of a scan holds of every order. *)
Definition getByPrefix (prefix : string) : Handler (list value) :=
  λ kv,
    (Normal (filter (λ entry, String.prefix prefix entry.1 = true) (map_to_list kv)).*2,
     kv).

End kv.

(** ** Currency conversion: the table and what lies beyond it *)

(** The literal [conversionRates], the same in the server route and in the
    client helper: a table of rows keyed by the source currency. *)
Definition conversionRates : gmap string (gmap string float) :=
  list_to_map
    [ ("USD", list_to_map [("EUR", 0.85%float); ("GBP", 0.73%float); ("JPY", 110%float); ("USD", 1%float)]);
      ("EUR", list_to_map [("USD", 1.18%float); ("GBP", 0.86%float); ("JPY", 129%float); ("EUR", 1%float)]);
      ("GBP", list_to_map [("USD", 1.37%float); ("EUR", 1.16%float); ("JPY", 151%float); ("GBP", 1%float)]);
      ("JPY", list_to_map [("USD", 0.0091%float); ("EUR", 0.0077%float); ("GBP", 0.0066%float); ("JPY", 1%float)]) ].

(** The rate of a pair that is in the table. *)
Definition table_rate (from to : string) : option float :=
  row ← conversionRates !! from; row !! to.

(** What [conversionRates[from]?.[to]] finds is a number of the table, or
    nothing, or, the table and its rows being object literals, a member of
    [Object.prototype] or a property of such a member.  The route tests the
    value ([|| 1]), multiplies by it and writes it in its answer: a [found]
    value carries what these three uses see of it. *)
Record found : Type := Found {
  to_boolean : bool;
  to_number : float;
  (* the value as [JSON.stringify] writes a property of it; [None]: the
     property is left out *)
  to_json : jsval
}.

Definition a_number (r : float) : found :=
  Found (Number.truthy r) r (Some (json_number r)).

(** [undefined] *)
Definition nothing : found := Found false nan None.

(** A built-in function: an object, so truthy; its primitive value is its
    source text, no numeral, so [NaN] as a number; left out by JSON. *)
Definition a_function : found := Found true nan None.

(** [Object.prototype] itself: its primitive value is ["[object Object]"],
    and it has no enumerable property, so JSON writes [{}]. *)
Definition the_Object_prototype : found := Found true nan (Some (VObj ∅)).

(** The function-valued properties that ECMAScript gives [Object.prototype]. *)
Definition Object_prototype_functions : list string :=
  [ "constructor"; "hasOwnProperty"; "isPrototypeOf"; "propertyIsEnumerable";
    "toLocaleString"; "toString"; "valueOf" ].

(** The legacy members, which a host may leave out: four functions and the
    accessor [__proto__], which answers the prototype of the object read,
    here [Object.prototype]. *)
Definition Object_prototype_legacy_functions : list string :=
  [ "__defineGetter__"; "__defineSetter__"; "__lookupGetter__"; "__lookupSetter__" ].

(** ** The expense form *)

(** The fields of the form's state that [handleSubmit] reads; [amount] is
    [parseFloat(formData.amount)]. *)
Record formData : Type := FormData {
  amount : float;
  currency : string;
  category : string;
  description : string;
  date : string
}.

(** [currencies], the items of the form's currency select; the form's
    state starts with ['USD'] and takes its currency from the select. *)
Definition currencies : list string :=
  [ "USD"; "EUR"; "GBP"; "JPY"; "CAD"; "AUD"; "CHF"; "CNY" ].

(** ** More of JavaScript: strict equality, optional chaining, array methods *)

(** [v === s] for a string [s]. *)
Definition strict_eq_string (v : jsval) (s : string) : bool :=
  match v with
  | Some (VStr s') => String.eqb s' s
  | _ => false
  end.

(** [v?.name] *)
Definition optional_property (v : jsval) (name : string) : jsval :=
  match v with
  | None | Some VNull => None
  | Some x => own_property x name
  end.

(** [array.filter(p)] for a callback that may throw. *)
Fixpoint filterH {A : Type} (p : A → Handler bool) (l : list A) : Handler (list A) :=
  match l with
  | [] => mret []
  | x :: rest =>
      keep ← p x;
      rest' ← filterH p rest;
      mret (if keep : bool then x :: rest' else rest')
  end.

(** [Promise.all(array.map(f))]: the callbacks only read the store, so
    running them one after the other gives what running them interleaved
    gives. *)
Fixpoint mapH {A B : Type} (f : A → Handler B) (l : list A) : Handler (list B) :=
  match l with
  | [] => mret []
  | x :: rest =>
      y ← f x;
      rest' ← mapH f rest;
      mret (y :: rest')
  end.

(** ** The dashboard's counters *)

Module Dashboard.

Record stats : Type := Stats {
  total : nat;
  pending : nat;
  approved : nat;
  rejected : nat
}.

(** [data?.filter((e) => e.status === status).length || 0] for an array
    [data]: reading [status] off a [null] element throws. *)
Fixpoint count_status (status : string) (data : list value) : completion nat :=
  match data with
  | [] => Normal 0%nat
  | VNull :: _ => Thrown
  | e :: rest =>
      match count_status status rest with
      | Normal n =>
          Normal (if strict_eq_string (own_property e "status") status then S n else n)
      | Thrown => Thrown
      end
  end.

(** The counters that [fetchExpenses] computes from the answer [data] of
    [apiClient.getExpenses]: all zero without an answer; of an answer
    that is not an array, [filter] is no function and the call throws. *)
Definition fetchExpenses_stats (data : jsval) : completion stats :=
  match data with
  | None | Some VNull => Normal (Stats 0 0 0 0)
  | Some (VArr elements) =>
      match count_status "pending" elements,
            count_status "approved" elements,
            count_status "rejected" elements with
      | Normal p, Normal a, Normal r => Normal (Stats (length elements) p a r)
      | _, _, _ => Thrown
      end
  | Some _ => Thrown
  end.

End Dashboard.

(** ** The client's demo credentials *)

(** [DEMO_USERS] of the API client: password and user id by email. *)
Definition DEMO_USERS : gmap string (string * string) :=
  list_to_map
    [ ("admin@company.com", ("admin123", "admin-001"));
      ("manager@company.com", ("manager123", "manager-001"));
      ("employee@company.com", ("employee123", "employee-001")) ].

(** The seven times at which [POST /setup] reads the clock, in order. *)
Record setupClock : Type := SetupClock {
  company_created : Z;
  admin_created : Z;
  manager_created : Z;
  employee_created : Z;
  rule_created : Z;
  expense1_created : Z;
  expense2_created : Z
}.

(** Stand-ins for the two functions that the server section leaves
    abstract, to run the routes on sample data. *)
Definition sample_Number_toString (x : float) : string :=
  if PrimFloat.eqb x 1%float then "1" else "0".

Definition sample_toISOString (ms : Z) : string := pretty ms +:+ "ms".

(** The body of a decision request, [{ status, comments }]. *)
Definition sample_decision (status comments : string) : gmap string value :=
  list_to_map [ ("status", VStr status); ("comments", VStr comments) ].

(** A host for the sample runs: one with the legacy members, whose
    built-in functions have a [length] and nothing else. *)
Definition sample_legacy (name : string) : bool := true.

Definition sample_builtin_property (builtin name : string) : completion found :=
  if String.eqb name "length" then Normal (a_number 1%float) else Normal nothing.

Section Server.

(** Number::toString of ECMAScript, the shortest decimal that reads back
    as the number, is left abstract. *)
Variable Number_toString : float → string.

(** [new Date(ms).toISOString()], left abstract; a time is the number of
    milliseconds that [Date.now()] returns. *)
Variable toISOString : Z → string.

(** Which of the legacy members of [Object.prototype] the host has: Deno,
    which serves the routes, has removed [__proto__]; browsers, where the
    client helper runs, have all five. *)
Variable legacy : string → bool.

(** [m[name]] for a member [m] of [Object.prototype], given by its name:
    a property of a built-in function (its [length], its [name], a method
    of [Function.prototype], ...) or of [Object.prototype] itself, or
    nothing; the read throws where the property is a poisoned accessor
    ([caller], [arguments]).  What the built-ins hold is the host's. *)
Variable builtin_property : string → string → completion found.

(** ToString of a JSON value, as a template literal applies it.  An object
    is converted by its [toString] method.  A parsed object has the method
    of [Object.prototype] unless it has an own property of that name; such
    a property holds a JSON value, which cannot be called, and [valueOf]
    then answers the object itself or cannot be called either: a TypeError.
    An array is converted by [join]. *)
Fixpoint ToString (v : value) : completion string :=
  match v with
  | VNull => Normal "null"
  | VBool true => Normal "true"
  | VBool false => Normal "false"
  | VNum x => Normal (Number_toString x)
  | VStr s => Normal s
  | VArr elements =>
      (* Array.prototype.join: [null] elements print as the empty string *)
      let element v := match v with VNull => Normal "" | _ => ToString v end in
      (fix join (l : list value) : completion string :=
         match l with
         | [] => Normal ""
         | [v] => element v
         | v :: rest =>
             match element v, join rest with
             | Normal s, Normal t => Normal (s +:+ "," +:+ t)
             | _, _ => Thrown
             end
         end) elements
  | VObj fields =>
      match fields !! "toString" with
      | Some _ => Thrown
      | None => Normal "[object Object]"
      end
  end.

(** [`${v}`] *)
Definition template (v : jsval) : completion string :=
  match v with
  | Some x => ToString x
  | None => Normal "undefined"
  end.

(** [`${prefix}${v}`] *)
Definition key_of (prefix : string) (v : jsval) : Handler string :=
  evaluate (s ← template v; Normal (prefix +:+ s)).

(** *** The rate lookup *)

(** [o[name]] for an object literal [o] that has no own property [name]:
    the member of [Object.prototype], if there is one. *)
Definition Object_prototype (name : string) : option found :=
  if bool_decide (name ∈ Object_prototype_functions) then Some a_function
  else if bool_decide (name ∈ Object_prototype_legacy_functions) then
    (if legacy name then Some a_function else None)
  else if bool_decide (name = "__proto__") then
    (if legacy name then Some the_Object_prototype else None)
  else None.

(** [conversionRates[from]?.[to]] *)
Definition lookup_rate (from to : string) : completion found :=
  match conversionRates !! from with
  | Some row =>
      match row !! to with
      | Some r => Normal (a_number r)
      | None => Normal (default nothing (Object_prototype to))
      end
  | None =>
      match Object_prototype from with
      | Some _ => builtin_property from to
      | None => Normal nothing
      end
  end.

(** [conversionRates[from]?.[to] || 1] *)
Definition rate_or_1 (from to : string) : completion found :=
  v ← lookup_rate from to;
  Normal (if to_boolean v then v else a_number 1%float).

(** The client helper [convertCurrency(amount, fromCurrency, toCurrency)]. *)
Definition convertCurrency (amount : float) (fromCurrency toCurrency : string) :
    completion float :=
  if decide (fromCurrency = toCurrency) then Normal amount
  else
    rate ← rate_or_1 fromCurrency toCurrency;
    Normal (Number.Math_round (amount * to_number rate * 100) / 100)%float.

(** The number [convertedAmount] of the route
    [GET /convert/:from/:to/:amount]; [amount] here is [parseFloat(amount)]
    of the route parameter. *)
Definition convertedAmount (from to : string) (amount : float) : completion float :=
  rate ← rate_or_1 from to;
  Normal (Number.Math_round (amount * to_number rate * 100) / 100)%float.

(** *** [GET /convert/:from/:to/:amount]

    [amount] is [parseFloat] of the route parameter. *)
Definition GET_convert (from to : string) (amount : float) :
    gmap string value → response * gmap string value :=
  try_catch
    (rate ← evaluate (rate_or_1 from to);
     let convertedAmount :=
       (Number.Math_round (amount * to_number rate * 100) / 100)%float in
     mret (c_json (Some (VObj (set_prop "rate" (to_json rate) (list_to_map
       [ ("originalAmount", VNum amount);
         ("convertedAmount", VNum convertedAmount);
         ("fromCurrency", VStr from);
         ("toCurrency", VStr to) ]))))))
    "Failed to convert currency".

(** *** [GET /user/:email] *)
Definition GET_user (email : string) :
    gmap string value → response * gmap string value :=
  try_catch
    (userId ← kv.get ("user:email:" +:+ email);
     if negb (truthy userId) then
       mret (c_json_status (error_body "User not found") 404)
     else
       user_key ← key_of "user:" userId;
       user ← kv.get user_key;
       mret (c_json user))
    "Failed to fetch user".

(** *** [POST /expenses]

    [expenseData] is the parsed request body; the four times are the
    values of [Date.now()], [new Date()], [Date.now()] and [new Date()]
    in the order the route reads the clock. *)
Definition POST_expenses (expenseData : value)
    (now_id now_created now_step_id now_step_created : Z) :
    gmap string value → response * gmap string value :=
  try_catch
    (let expenseId := "expense-" +:+ pretty now_id in
     let expense :=
       VObj (<["created_at" := VStr (toISOString now_created)]>
             (<["status" := VStr "pending"]>
              (spread (Some expenseData) ∪ {[ "id" := VStr expenseId ]}))) in
     kv.set ("expense:" +:+ expenseId) expense;;
     employee_id ← member (Some expenseData) "employee_id";
     user_key ← key_of "user:" employee_id;
     user ← kv.get user_key;
     manager_id ← (if truthy user then member user "manager_id" else mret user);
     (if truthy user && truthy manager_id then
        let approvalStepId := "approval-" +:+ pretty now_step_id in
        let approvalStep :=
          VObj (set_prop "approver_id" manager_id (list_to_map
            [ ("id", VStr approvalStepId);
              ("expense_id", VStr expenseId);
              ("status", VStr "pending");
              ("sequence", VNum 1%float);
              ("created_at", VStr (toISOString now_step_created)) ])) in
        kv.set ("approval_step:" +:+ approvalStepId) approvalStep
      else mret tt);;
     mret (c_json (Some expense)))
    "Failed to create expense".

(** *** [POST /approvals/:approvalId]

    [reqBody] is the parsed request body, [now] the time of [new Date()]. *)
Definition POST_approvals (approvalId : string) (reqBody : value) (now : Z) :
    gmap string value → response * gmap string value :=
  try_catch
    (status ← member (Some reqBody) "status";
     comments ← member (Some reqBody) "comments";
     approval ← kv.get ("approval_step:" +:+ approvalId);
     if negb (truthy approval) then
       mret (c_json_status (error_body "Approval not found") 404)
     else
       let updatedApproval :=
         VObj (<["decided_at" := VStr (toISOString now)]>
               (<["comments" := or_null comments]>
                (set_prop "status" status (spread approval)))) in
       kv.set ("approval_step:" +:+ approvalId) updatedApproval;;
       expense_id ← member approval "expense_id";
       expense_key ← key_of "expense:" expense_id;
       expense ← kv.get expense_key;
       (if truthy expense then
          let updatedExpense := VObj (set_prop "status" status (spread expense)) in
          expense_key' ← key_of "expense:" expense_id;
          kv.set expense_key' updatedExpense
        else mret tt);;
       mret (c_json (Some updatedApproval)))
    "Failed to process approval".

(** *** [DELETE /users/:userId] *)
Definition DELETE_users (userId : string) :
    gmap string value → response * gmap string value :=
  try_catch
    (user ← kv.get ("user:" +:+ userId);
     if negb (truthy user) then
       mret (c_json_status (error_body "User not found") 404)
     else
       kv.del ("user:" +:+ userId);;
       email ← member user "email";
       email_key ← key_of "user:email:" email;
       kv.del email_key;;
       mret (c_json (Some (VObj {[ "success" := VBool true ]}))))
    "Failed to delete user".

(** *** The client: [apiClient] and the expense form's [handleSubmit] *)

(** [apiClient.request]: the parsed body of the response, or a throw when
    the response is not [ok] (a status outside 200-299). *)
Definition request (route : gmap string value → response * gmap string value) :
    Handler jsval :=
  λ kv,
    let '(r, kv') := route kv in
    if (200 <=? code r) && (code r <=? 299) then (Normal (body r), kv')
    else (Thrown, kv').

(** [user?.id] *)
Definition optional_id (user : jsval) : jsval :=
  match user with
  | None | Some VNull => None
  | Some u => own_property u "id"
  end.

(** [handleSubmit] of the expense form, from the conversion on: [user] is the
    signed-in user of the auth context, [receiptUrl] the outcome of the
    receipt upload ([null] without a receipt), the four times are those of
    [POST /expenses].  The amount reaches the conversion route inside the
    URL, as the text that [parseFloat] reads back to the same number ([-0]
    to [0], which the JSON of the answer does not tell apart);
    [createExpense] sends [expenseData] as JSON.  The result tells whether
    the form reached [setSuccess(true)]; the [catch] of the form reports any
    throw instead. *)
Definition handleSubmit (user : jsval) (form : formData) (receiptUrl : value)
    (now_id now_created now_step_id now_step_created : Z)
    (kv : gmap string value) : bool * gmap string value :=
  let block : Handler unit :=
    let companyCurrency := "USD" in
    conversionData ← request (GET_convert (currency form) companyCurrency (amount form));
    convertedAmount ← member conversionData "convertedAmount";
    let expenseData :=
      VObj (set_prop "amount_in_company_currency" convertedAmount
            (set_prop "employee_id" (optional_id user) (list_to_map
              [ ("amount", json_number (amount form));
                ("currency", VStr (currency form));
                ("category", VStr (category form));
                ("description", VStr (description form));
                ("date", VStr (date form));
                ("receipt_url", receiptUrl) ]))) in
    request (POST_expenses (json expenseData) now_id now_created now_step_id now_step_created);;
    mret tt in
  match block kv with
  | (Normal _, kv') => (true, kv')
  | (Thrown, kv') => (false, kv')
  end.

(** *** Records as the routes write them *)

(** The two outcomes of a decision, [status: 'approved' | 'rejected'] of
    [apiClient.processApproval]. *)
Inductive decision : Type := approved | rejected.

Definition decision_name (d : decision) : string :=
  match d with
  | approved => "approved"
  | rejected => "rejected"
  end.

(** [{ ...record, status }] *)
Definition with_status (record : jsval) (status : jsval) : value :=
  VObj (set_prop "status" status (spread record)).

(** [updatedApproval] of [POST /approvals/:approvalId]. *)
Definition decided (approval : value) (reqBody : gmap string value) (now : Z) : value :=
  VObj (<["decided_at" := VStr (toISOString now)]>
        (<["comments" := or_null (reqBody !! "comments")]>
         (set_prop "status" (reqBody !! "status") (spread (Some approval))))).

(** [expense] of [POST /expenses]. *)
Definition submitted (expenseData : gmap string value) (now_id now_created : Z) : value :=
  VObj (<["created_at" := VStr (toISOString now_created)]>
        (<["status" := VStr "pending"]>
         (expenseData ∪ {[ "id" := VStr ("expense-" +:+ pretty now_id) ]}))).

(** [approvalStep] of [POST /expenses]. *)
Definition first_step (manager_id : value) (now_id now_step_id now_step_created : Z) : value :=
  VObj (<["approver_id" := manager_id]> (list_to_map
    [ ("id", VStr ("approval-" +:+ pretty now_step_id));
      ("expense_id", VStr ("expense-" +:+ pretty now_id));
      ("status", VStr "pending");
      ("sequence", VNum 1%float);
      ("created_at", VStr (toISOString now_step_created)) ])).

(** [v.name] where [v] may be [undefined]. *)
Definition property (v : jsval) (name : string) : jsval :=
  v ≫= λ x, own_property x name.

(** *** Sample data

    The demo manager, employee and pending expense that [POST /setup] writes
    (creation times left out), and the approval step of that expense. *)
Definition sample_manager : value :=
  VObj (list_to_map
    [ ("id", VStr "manager-001"); ("email", VStr "manager@company.com");
      ("name", VStr "Manager User"); ("role", VStr "manager");
      ("company_id", VStr "demo-company-001"); ("is_manager_approver", VBool true) ]).

Definition sample_employee : value :=
  VObj (list_to_map
    [ ("id", VStr "employee-001"); ("email", VStr "employee@company.com");
      ("name", VStr "Employee User"); ("role", VStr "employee");
      ("company_id", VStr "demo-company-001"); ("manager_id", VStr "manager-001");
      ("is_manager_approver", VBool false) ]).

Definition sample_expense : value :=
  VObj (list_to_map
    [ ("id", VStr "expense-002"); ("employee_id", VStr "employee-001");
      ("amount", VNum 120%float); ("currency", VStr "USD");
      ("amount_in_company_currency", VNum 120%float);
      ("category", VStr "Transportation");
      ("description", VStr "Uber to client meeting");
      ("date", VStr "2024-01-16"); ("status", VStr "pending") ]).

Definition sample_step_fields : gmap string value :=
  list_to_map
    [ ("id", VStr "approval-1"); ("expense_id", VStr "expense-002");
      ("approver_id", VStr "manager-001"); ("status", VStr "pending");
      ("sequence", VNum 1%float) ].

Definition sample_store : gmap string value :=
  list_to_map
    [ ("user:manager-001", sample_manager);
      ("user:email:manager@company.com", VStr "manager-001");
      ("user:employee-001", sample_employee);
      ("user:email:employee@company.com", VStr "employee-001");
      ("expense:expense-002", sample_expense);
      ("approval_step:approval-1", VObj sample_step_fields) ].

(** The request body [{amount: 120, currency: "USD", category:
    "Transportation", date: "2024-01-16"}] for the demo employee. *)
Definition sample_expenseData : gmap string value :=
  list_to_map
    [ ("employee_id", VStr "employee-001"); ("amount", VNum 120%float);
      ("currency", VStr "USD"); ("category", VStr "Transportation");
      ("date", VStr "2024-01-16") ].

Definition sample_form : formData :=
  FormData 120%float "USD" "Transportation" "" "2024-01-16".

(** A value that no template literal can print: [{"toString": null}]. *)
Definition unprintable : value := VObj {[ "toString" := VNull ]}.

(** *** [POST /users] *)
Definition POST_users (userData : value) (now_id now_created : Z) :
    gmap string value → response * gmap string value :=
  try_catch
    (let userId := "user-" +:+ pretty now_id in
     let user :=
       VObj (<["createdAt" := VStr (toISOString now_created)]>
             (<["companyId" := VStr "demo-company-001"]>
              (spread (Some userData) ∪ {[ "id" := VStr userId ]}))) in
     kv.set ("user:" +:+ userId) user;;
     email ← member (Some userData) "email";
     email_key ← key_of "user:email:" email;
     kv.set email_key (VStr userId);;
     mret (c_json (Some user)))
    "Failed to create user".

(** *** [POST /company] *)
Definition POST_company (companyData : value) (now_id now_created : Z) :
    gmap string value → response * gmap string value :=
  try_catch
    (let companyId := "company-" +:+ pretty now_id in
     let company :=
       VObj (<["createdAt" := VStr (toISOString now_created)]>
             (spread (Some companyData) ∪ {[ "id" := VStr companyId ]})) in
     kv.set ("company:" +:+ companyId) company;;
     mret (c_json (Some company)))
    "Failed to create company".

(** *** [POST /approval-rules] *)
Definition POST_approval_rules (ruleData : value) (now_id now_created : Z) :
    gmap string value → response * gmap string value :=
  try_catch
    (let ruleId := "rule-" +:+ pretty now_id in
     let rule :=
       VObj (<["createdAt" := VStr (toISOString now_created)]>
             (<["companyId" := VStr "demo-company-001"]>
              (spread (Some ruleData) ∪ {[ "id" := VStr ruleId ]}))) in
     kv.set ("approval_rule:" +:+ ruleId) rule;;
     mret (c_json (Some rule)))
    "Failed to create approval rule".

(** *** [POST /setup]

    The loops over the literal arrays are written out. *)
Definition POST_setup (clock : setupClock) :
    gmap string value → response * gmap string value :=
  try_catch
    (let companyData := VObj (list_to_map
       [ ("id", VStr "demo-company-001"); ("name", VStr "Demo Corporation");
         ("country", VStr "United States"); ("currency", VStr "USD");
         ("created_at", VStr (toISOString (company_created clock))) ]) in
     kv.set "company:demo-company-001" companyData;;
     let admin := VObj (list_to_map
       [ ("id", VStr "admin-001"); ("email", VStr "admin@company.com");
         ("name", VStr "Admin User"); ("role", VStr "admin");
         ("company_id", VStr "demo-company-001"); ("is_manager_approver", VBool false);
         ("created_at", VStr (toISOString (admin_created clock))) ]) in
     let manager := VObj (list_to_map
       [ ("id", VStr "manager-001"); ("email", VStr "manager@company.com");
         ("name", VStr "Manager User"); ("role", VStr "manager");
         ("company_id", VStr "demo-company-001"); ("is_manager_approver", VBool true);
         ("created_at", VStr (toISOString (manager_created clock))) ]) in
     let employee := VObj (list_to_map
       [ ("id", VStr "employee-001"); ("email", VStr "employee@company.com");
         ("name", VStr "Employee User"); ("role", VStr "employee");
         ("company_id", VStr "demo-company-001"); ("manager_id", VStr "manager-001");
         ("is_manager_approver", VBool false);
         ("created_at", VStr (toISOString (employee_created clock))) ]) in
     kv.set "user:admin-001" admin;;
     kv.set "user:email:admin@company.com" (VStr "admin-001");;
     kv.set "user:manager-001" manager;;
     kv.set "user:email:manager@company.com" (VStr "manager-001");;
     kv.set "user:employee-001" employee;;
     kv.set "user:email:employee@company.com" (VStr "employee-001");;
     kv.set "approval_rule:rule-001" (VObj (list_to_map
       [ ("id", VStr "rule-001"); ("company_id", VStr "demo-company-001");
         ("type", VStr "specific"); ("specific_approver_id", VStr "manager-001");
         ("created_at", VStr (toISOString (rule_created clock))) ]));;
     let expense1 := VObj (list_to_map
       [ ("id", VStr "expense-001"); ("employee_id", VStr "employee-001");
         ("amount", VNum 50%float); ("currency", VStr "USD");
         ("amount_in_company_currency", VNum 50%float);
         ("category", VStr "Meals & Entertainment");
         ("description", VStr "Team lunch meeting");
         ("date", VStr "2024-01-15"); ("status", VStr "approved");
         ("created_at", VStr (toISOString (expense1_created clock))) ]) in
     let expense2 := VObj (list_to_map
       [ ("id", VStr "expense-002"); ("employee_id", VStr "employee-001");
         ("amount", VNum 120%float); ("currency", VStr "USD");
         ("amount_in_company_currency", VNum 120%float);
         ("category", VStr "Transportation");
         ("description", VStr "Uber to client meeting");
         ("date", VStr "2024-01-16"); ("status", VStr "pending");
         ("created_at", VStr (toISOString (expense2_created clock))) ]) in
     kv.set "expense:expense-001" expense1;;
     kv.set "expense:expense-002" expense2;;
     let summary id email role : value :=
       VObj (list_to_map [ ("id", VStr id); ("email", VStr email); ("role", VStr role) ]) in
     mret (c_json (Some (VObj (list_to_map
       [ ("message", VStr "Demo data setup completed successfully");
         ("company", companyData);
         ("users", VArr
            [ summary "admin-001" "admin@company.com" "admin";
              summary "manager-001" "manager@company.com" "manager";
              summary "employee-001" "employee@company.com" "employee" ]);
         ("credentials", VObj (list_to_map
            [ ("admin", VStr "admin@company.com / admin123");
              ("manager", VStr "manager@company.com / manager123");
              ("employee", VStr "employee@company.com / employee123") ])) ])))))
    "Failed to setup demo data".

(** *** [GET /approvals/:userId] *)

(** [step.approver_id === userId && step.status === 'pending'] *)
Definition is_pending_for (userId : string) (step : value) : Handler bool :=
  approver_id ← member (Some step) "approver_id";
  if strict_eq_string approver_id userId then
    status ← member (Some step) "status";
    mret (strict_eq_string status "pending")
  else mret false.

(** [{ ...approval, expense: { ...expense, employee } }] *)
Definition entry (approval : value) (expense employee : jsval) : value :=
  VObj (<["expense" := VObj (set_prop "employee" employee (spread expense))]>
        (spread (Some approval))).

(** The callback of [pendingApprovals.map]: the approval with its expense,
    and the expense with its employee. *)
Definition with_expense (approval : value) : Handler value :=
  expense_id ← member (Some approval) "expense_id";
  expense_key ← key_of "expense:" expense_id;
  expense ← kv.get expense_key;
  employee_key ← key_of "user:" (optional_property expense "employee_id");
  employee ← kv.get employee_key;
  mret (entry approval expense employee).

Definition GET_approvals (userId : string) :
    gmap string value → response * gmap string value :=
  try_catch
    (approvalKeys ← kv.getByPrefix "approval_step:";
     pendingApprovals ← filterH (is_pending_for userId) approvalKeys;
     approvalsWithExpenses ← mapH with_expense pendingApprovals;
     mret (c_json (Some (VArr approvalsWithExpenses))))
    "Failed to fetch approvals".

(** *** The client: signing in and deciding *)

(** [apiClient.authenticateUser(email, password)]: a throw unless the pair
    is one of [DEMO_USERS], else the user record the server has for the
    email.  An email that names a member of [Object.prototype] finds that
    member, which has no [password]: the comparison fails and the call
    throws, as it does for an email that finds nothing. *)
Definition authenticateUser (email password : string) : Handler jsval :=
  match DEMO_USERS !! email with
  | Some user =>
      if negb (String.eqb user.1 password) then throw
      else request (GET_user email)
  | None => throw
  end.

(** [apiClient.processApproval(approvalId, status, comments?)] *)
Definition processApproval (approvalId : string) (status : decision)
    (comments : option string) (now : Z) : Handler jsval :=
  request (POST_approvals approvalId
    (VObj (set_prop "comments" (VStr <$> comments)
             {[ "status" := VStr (decision_name status) ]})) now).

(** *** Sequences of requests *)

(** The requests that write to the store. *)
Inductive call : Type :=
  | Setup (clock : setupClock)
  | CreateCompany (companyData : value) (now_id now_created : Z)
  | CreateUser (userData : value) (now_id now_created : Z)
  | DeleteUser (userId : string)
  | CreateRule (ruleData : value) (now_id now_created : Z)
  | SubmitExpense (expenseData : value)
      (now_id now_created now_step_id now_step_created : Z)
  | Decide (approvalId : string) (reqBody : value) (now : Z).

Definition serve (c : call) : gmap string value → response * gmap string value :=
  match c with
  | Setup clock => POST_setup clock
  | CreateCompany companyData now_id now_created =>
      POST_company companyData now_id now_created
  | CreateUser userData now_id now_created => POST_users userData now_id now_created
  | DeleteUser userId => DELETE_users userId
  | CreateRule ruleData now_id now_created =>
      POST_approval_rules ruleData now_id now_created
  | SubmitExpense expenseData now_id now_created now_step_id now_step_created =>
      POST_expenses expenseData now_id now_created now_step_id now_step_created
  | Decide approvalId reqBody now => POST_approvals approvalId reqBody now
  end.

(** The store after a sequence of requests, served one after the other. *)
Definition serve_all (calls : list call) (kv : gmap string value) : gmap string value :=
  foldl (λ kv c, (serve c kv).2) kv calls.

(** What the workflow keeps true of the store: every expense record and
    every approval step is an object, and the expense that a step names is
    in the store. *)
Definition is_object (v : value) : Prop := ∃ fields, v = VObj fields.

Definition consistent (kv : gmap string value) : Prop :=
  (∀ id v, kv !! ("expense:" +:+ id) = Some v → is_object v)
  ∧ (∀ id v, kv !! ("approval_step:" +:+ id) = Some v →
       is_object v
       ∧ ∃ expense_id,
           template (own_property v "expense_id") = Normal expense_id
           ∧ is_Some (kv !! ("expense:" +:+ expense_id))).

(** Every stored expense names its employee by a value that a template
    literal can print. *)
Definition employees_printable (kv : gmap string value) : Prop :=
  ∀ id v, kv !! ("expense:" +:+ id) = Some v →
    ∃ employee_id, template (own_property v "employee_id") = Normal employee_id.

(** The properties that a request body has for the routes: those of an
    object, none of any other value. *)
Definition fields_of (body : value) : gmap string value :=
  match body with
  | VObj fields => fields
  | _ => ∅
  end.

(** The test of [GET /approvals/:userId] on a step that is not [null]. *)
Definition pending_for (userId : string) (step : value) : bool :=
  strict_eq_string (own_property step "approver_id") userId
  && strict_eq_string (own_property step "status") "pending".

(** The entry that [GET /approvals/:userId] answers for an approval, when
    the two keys can be formed. *)
Definition entry_of (kv : gmap string value) (approval : value) : completion value :=
  expense_id ← template (own_property approval "expense_id");
  let expense := kv !! ("expense:" +:+ expense_id) in
  employee_id ← template (optional_property expense "employee_id");
  Normal (entry approval expense (kv !! ("user:" +:+ employee_id))).

(** [Promise.all(array.map(f))] for a callback that only evaluates. *)
Fixpoint map_all {A B : Type} (f : A → completion B) (l : list A) : completion (list B) :=
  match l with
  | [] => Normal []
  | x :: rest =>
      match f x, map_all f rest with
      | Normal y, Normal rest' => Normal (y :: rest')
      | _, _ => Thrown
      end
  end.

Definition is_null (v : value) : bool :=
  match v with
  | VNull => true
  | _ => false
  end.

(** The approval steps of the store, in the order of a scan. *)
Definition approval_steps (kv : gmap string value) : list value :=
  (filter (λ entry, String.prefix "approval_step:" entry.1 = true) (map_to_list kv)).*2.

(** Unfolds a route down to lookups, inserts and deletes on the store. *)
Ltac run_route :=
  unfold try_catch, key_of, throw, evaluate, kv.get, kv.set, kv.del, mbind, Handler_bind,
    completion_bind, mret, Handler_ret;
  cbn beta iota zeta.

(** *** Keys of different record kinds never coincide *)

Lemma step_key_not_expense_key (a b : string) :
  "approval_step:" +:+ a ≠ "expense:" +:+ b.
Proof. discriminate. Qed.

Lemma expense_key_not_user_key (a b : string) :
  "expense:" +:+ a ≠ "user:" +:+ b.
Proof. discriminate. Qed.

Lemma expense_key_not_step_key (a b : string) :
  "expense:" +:+ a ≠ "approval_step:" +:+ b.
Proof. discriminate. Qed.

(** *** Running a route *)

Lemma member_truthy (v : jsval) (name : string) :
  truthy v = true → member v name = mret (property v name).
Proof. destruct v as [[]|]; done. Qed.

Lemma member_object (fields : gmap string value) (name : string) :
  member (Some (VObj fields)) name = mret (fields !! name).
Proof. reflexivity. Qed.

(** A string prints as itself. *)
Lemma template_string (s : string) : template (Some (VStr s)) = Normal s.
Proof. reflexivity. Qed.

Lemma POST_approvals_found kv approvalId approval reqBody now :
  kv !! ("approval_step:" +:+ approvalId) = Some approval →
  truthy (Some approval) = true →
  POST_approvals approvalId (VObj reqBody) now kv =
    let updatedApproval := decided approval reqBody now in
    let kv1 := <["approval_step:" +:+ approvalId := updatedApproval]> kv in
    match template (own_property approval "expense_id") with
    | Normal expense_id =>
        let expense_key := "expense:" +:+ expense_id in
        (c_json (Some updatedApproval),
         if truthy (kv !! expense_key)
         then <[expense_key := with_status (kv !! expense_key) (reqBody !! "status")]> kv1
         else kv1)
    | Thrown => (c_json_status (error_body "Failed to process approval") 500, kv1)
    end.
Proof.
  intros Hstep Htruthy. unfold POST_approvals.
  rewrite !member_object. run_route. rewrite Hstep, Htruthy. cbn [negb].
  rewrite member_truthy by done. run_route. cbn [property mbind option_bind].
  destruct (template (own_property approval "expense_id")) as [expense_id|]; [|reflexivity].
  rewrite lookup_insert_ne by apply step_key_not_expense_key.
  unfold decided, with_status. destruct (truthy (kv !! _)); reflexivity.
Qed.

Lemma POST_approvals_missing kv approvalId reqBody now :
  truthy (kv !! ("approval_step:" +:+ approvalId)) = false →
  POST_approvals approvalId (VObj reqBody) now kv =
    (c_json_status (error_body "Approval not found") 404, kv).
Proof.
  intros Hstep. unfold POST_approvals.
  rewrite !member_object. run_route. by rewrite Hstep.
Qed.

Lemma POST_expenses_object kv expenseData now_id now_created now_step_id now_step_created :
  POST_expenses (VObj expenseData) now_id now_created now_step_id now_step_created kv =
    let expense := submitted expenseData now_id now_created in
    let kv1 := <["expense:" +:+ "expense-" +:+ pretty now_id := expense]> kv in
    match template (expenseData !! "employee_id") with
    | Normal employee_id =>
        let user := kv !! ("user:" +:+ employee_id) in
        (c_json (Some expense),
         match property user "manager_id" with
         | Some manager_id =>
             if truthy (Some manager_id)
             then <["approval_step:" +:+ "approval-" +:+ pretty now_step_id :=
                      first_step manager_id now_id now_step_id now_step_created]> kv1
             else kv1
         | None => kv1
         end)
    | Thrown => (c_json_status (error_body "Failed to create expense") 500, kv1)
    end.
Proof.
  unfold POST_expenses. rewrite member_object. run_route.
  destruct (template (expenseData !! "employee_id")) as [employee_id|]; [|reflexivity].
  rewrite lookup_insert_ne by apply expense_key_not_user_key.
  destruct (kv !! ("user:" +:+ _)) as [user|] eqn:Huser; [|reflexivity].
  destruct (truthy (Some user)) eqn:Htruthy.
  - rewrite member_truthy by done. run_route. cbn [property mbind option_bind andb].
    destruct (own_property user "manager_id") as [manager_id|] eqn:Hmanager; [|reflexivity].
    destruct (truthy (Some manager_id)); reflexivity.
  - run_route. cbn [andb property mbind option_bind].
    destruct user; try discriminate Htruthy; reflexivity.
Qed.

Lemma DELETE_users_found kv userId user :
  kv !! ("user:" +:+ userId) = Some user →
  truthy (Some user) = true →
  DELETE_users userId kv =
    match template (own_property user "email") with
    | Normal email =>
        (c_json (Some (VObj {[ "success" := VBool true ]})),
         delete ("user:email:" +:+ email) (delete ("user:" +:+ userId) kv))
    | Thrown =>
        (c_json_status (error_body "Failed to delete user") 500,
         delete ("user:" +:+ userId) kv)
    end.
Proof.
  intros Huser Htruthy. unfold DELETE_users. run_route.
  rewrite Huser, Htruthy. cbn [negb].
  rewrite member_truthy by done. run_route. cbn [property mbind option_bind].
  by destruct (template (own_property user "email")).
Qed.

Lemma GET_user_missing kv email :
  kv !! ("user:email:" +:+ email) = None →
  GET_user email kv = (c_json_status (error_body "User not found") 404, kv).
Proof. intros Hemail. unfold GET_user. run_route. by rewrite Hemail. Qed.

(** *** Approval decision *)

Lemma decided_status approval reqBody now :
  own_property (decided approval reqBody now) "status" = reqBody !! "status".
Proof.
  unfold decided. cbn [own_property]. rewrite !lookup_insert_ne by done.
  destruct (reqBody !! "status"); cbn [set_prop];
    [by rewrite lookup_insert_eq | by rewrite lookup_delete_eq].
Qed.

Lemma decided_comments approval reqBody now :
  own_property (decided approval reqBody now) "comments"
  = Some (or_null (reqBody !! "comments")).
Proof. unfold decided. cbn [own_property]. by simplify_map_eq. Qed.

Lemma decided_decided_at approval reqBody now :
  own_property (decided approval reqBody now) "decided_at"
  = Some (VStr (toISOString now)).
Proof. unfold decided. cbn [own_property]. by simplify_map_eq. Qed.

(** The properties of the step that a decision does not name stay. *)
Lemma decided_other approval reqBody now name :
  name ≠ "status" → name ≠ "comments" → name ≠ "decided_at" →
  own_property (decided approval reqBody now) name = spread (Some approval) !! name.
Proof.
  intros ? ? ?. unfold decided. cbn [own_property]. rewrite !lookup_insert_ne by done.
  destruct (reqBody !! "status"); cbn [set_prop];
    [by rewrite lookup_insert_ne | by rewrite lookup_delete_ne].
Qed.

(** A later decision leaves nothing of an earlier one in the step. *)
Lemma decided_again step reqBody1 reqBody2 now1 now2 status2 :
  reqBody2 !! "status" = Some status2 →
  decided (decided (VObj step) reqBody1 now1) reqBody2 now2
  = decided (VObj step) reqBody2 now2.
Proof.
  intros Hstatus. unfold decided at 1 3. rewrite Hstatus. cbn [set_prop]. f_equal.
  apply map_eq. intros name.
  destruct (decide (name = "decided_at")) as [->|]; [by simplify_map_eq|].
  destruct (decide (name = "comments")) as [->|]; [by simplify_map_eq|].
  destruct (decide (name = "status")) as [->|]; [by simplify_map_eq|].
  rewrite !lookup_insert_ne by done.
  change (spread (Some (decided (VObj step) reqBody1 now1)) !! name)
    with (own_property (decided (VObj step) reqBody1 now1) name).
  by rewrite decided_other.
Qed.

Lemma with_status_again (record : jsval) (status1 status2 : value) :
  with_status (Some (with_status record (Some status1))) (Some status2)
  = with_status record (Some status2).
Proof.
  unfold with_status. cbn [spread set_prop]. by rewrite insert_insert_eq.
Qed.

(** The step is rewritten whether or not the expense is then reached. *)
Lemma POST_approvals_step kv approvalId approval reqBody now :
  kv !! ("approval_step:" +:+ approvalId) = Some approval →
  truthy (Some approval) = true →
  (POST_approvals approvalId (VObj reqBody) now kv).2 !! ("approval_step:" +:+ approvalId)
  = Some (decided approval reqBody now).
Proof.
  intros Hstep Htruthy. rewrite (POST_approvals_found _ _ _ _ _ Hstep Htruthy).
  cbn zeta. destruct (template _) as [expense_id|]; cbn [snd];
    [|by rewrite lookup_insert_eq].
  destruct (truthy (kv !! _));
    [rewrite lookup_insert_ne by apply not_eq_sym, step_key_not_expense_key|];
    by rewrite lookup_insert_eq.
Qed.

(** The comment that [comments || null] stores for a comment that is a
    string: the string, unless it is empty. *)
Lemma or_null_string (text : string) :
  or_null (Some (VStr text)) = if String.eqb text "" then VNull else VStr text.
Proof. unfold or_null. cbn [truthy]. by destruct (String.eqb text ""). Qed.

(** C1.  Deciding an existing approval step with an outcome sets the step's
    status to the outcome, stores the comment ([comments || null]), stamps
    [decided_at] with the time of the decision, and overwrites the status of
    the step's expense, the record under [expense:{step.expense_id}], with
    the same outcome; the response carries the updated step, as JSON, and no
    other record changes. *)
Theorem decide_updates_step_and_expense
    kv approvalId approval expense_id expense reqBody (outcome : decision) now :
  kv !! ("approval_step:" +:+ approvalId) = Some approval →
  truthy (Some approval) = true →
  reqBody !! "status" = Some (VStr (decision_name outcome)) →
  template (own_property approval "expense_id") = Normal expense_id →
  kv !! ("expense:" +:+ expense_id) = Some expense →
  truthy (Some expense) = true →
  let updatedApproval := decided approval reqBody now in
  let updatedExpense := with_status (Some expense) (Some (VStr (decision_name outcome))) in
  POST_approvals approvalId (VObj reqBody) now kv =
    (Response 200 (Some (json updatedApproval)),
     <["expense:" +:+ expense_id := updatedExpense]>
       (<["approval_step:" +:+ approvalId := updatedApproval]> kv))
  ∧ own_property updatedApproval "status" = Some (VStr (decision_name outcome))
  ∧ own_property updatedApproval "comments" = Some (or_null (reqBody !! "comments"))
  ∧ own_property updatedApproval "decided_at" = Some (VStr (toISOString now))
  ∧ own_property updatedExpense "status" = Some (VStr (decision_name outcome)).
Proof.
  intros Hstep Hstep_truthy Hstatus Hid Hexpense Hexpense_truthy updatedApproval updatedExpense.
  split_and!.
  - rewrite (POST_approvals_found _ _ _ _ _ Hstep Hstep_truthy). cbn zeta.
    by rewrite Hid, Hexpense, Hexpense_truthy, Hstatus.
  - unfold updatedApproval. by rewrite decided_status.
  - apply decided_comments.
  - apply decided_decided_at.
  - unfold updatedExpense, with_status. cbn [own_property set_prop].
    by rewrite lookup_insert_eq.
Qed.

(** C4.  Deciding a step id that is not in the store returns 404 with the
    error body and leaves the store as it was. *)
Theorem decide_unknown_step_not_found kv approvalId reqBody now :
  kv !! ("approval_step:" +:+ approvalId) = None →
  POST_approvals approvalId (VObj reqBody) now kv =
    (Response 404 (Some (VObj {[ "error" := VStr "Approval not found" ]})), kv).
Proof. intros Hstep. apply POST_approvals_missing. by rewrite Hstep. Qed.

(** C10.  When the step exists and the store has no record under
    [expense:{step.expense_id}], the step is updated all the same: it takes
    the status of the request, the comment of the request (a string that
    is not empty is stored as it is, an empty or missing one as [null]) and
    the time of the decision, and keeps its other properties.  Nothing is
    written under the expense's key or any other key, and the response is
    the ordinary success carrying the updated step, as JSON. *)
Theorem decide_without_expense kv approvalId approval expense_id reqBody now :
  kv !! ("approval_step:" +:+ approvalId) = Some approval →
  truthy (Some approval) = true →
  template (own_property approval "expense_id") = Normal expense_id →
  kv !! ("expense:" +:+ expense_id) = None →
  let result := POST_approvals approvalId (VObj reqBody) now kv in
  let stored := result.2 !! ("approval_step:" +:+ approvalId) in
  result = (Response 200 (Some (json (decided approval reqBody now))),
            <["approval_step:" +:+ approvalId := decided approval reqBody now]> kv)
  ∧ result.1.(body) = json <$> stored
  ∧ property stored "status" = reqBody !! "status"
  ∧ (∀ text, reqBody !! "comments" = Some (VStr text) →
       property stored "comments" = Some (if String.eqb text "" then VNull else VStr text))
  ∧ (reqBody !! "comments" = None → property stored "comments" = Some VNull)
  ∧ property stored "decided_at" = Some (VStr (toISOString now))
  ∧ (∀ name, name ≠ "status" → name ≠ "comments" → name ≠ "decided_at" →
       property stored name = spread (Some approval) !! name)
  ∧ result.2 !! ("expense:" +:+ expense_id) = None
  ∧ ∀ key, key ≠ "approval_step:" +:+ approvalId → result.2 !! key = kv !! key.
Proof.
  intros Hstep Htruthy Hid Hexpense result stored.
  assert (Hresult : result =
    (Response 200 (Some (json (decided approval reqBody now))),
     <["approval_step:" +:+ approvalId := decided approval reqBody now]> kv)).
  { subst result. rewrite (POST_approvals_found _ _ _ _ _ Hstep Htruthy). cbn zeta.
    by rewrite Hid, Hexpense. }
  assert (Hstored : stored = Some (decided approval reqBody now)).
  { subst stored. rewrite Hresult. cbn [snd]. by rewrite lookup_insert_eq. }
  rewrite Hstored. cbn [property mbind option_bind].
  split_and!; [done|by rewrite Hresult|apply decided_status| | |apply decided_decided_at| | |].
  - intros text Hcomment. by rewrite decided_comments, Hcomment, or_null_string.
  - intros Hcomment. by rewrite decided_comments, Hcomment.
  - intros name ? ? ?. by apply decided_other.
  - rewrite Hresult. cbn [snd].
    by rewrite lookup_insert_ne by apply step_key_not_expense_key.
  - intros key Hkey. rewrite Hresult. cbn [snd]. by rewrite lookup_insert_ne.
Qed.

(** C8.  The route takes no caller and reads neither the step's approver nor
    its status: on a step that a first decision has already settled, a second
    decision leaves the response and the whole store exactly as if it had
    been the only one, so the step's status, comments and [decided_at] are
    those of the second; it succeeds like the first, and the status of the
    step's expense is that of the second as well. *)
Theorem decide_again_overwrites
    kv approvalId (step : gmap string value) reqBody1 reqBody2
    (outcome1 outcome2 : decision) now1 now2 :
  kv !! ("approval_step:" +:+ approvalId) = Some (VObj step) →
  reqBody1 !! "status" = Some (VStr (decision_name outcome1)) →
  reqBody2 !! "status" = Some (VStr (decision_name outcome2)) →
  let first := POST_approvals approvalId (VObj reqBody1) now1 kv in
  let second := POST_approvals approvalId (VObj reqBody2) now2 first.2 in
  property (first.2 !! ("approval_step:" +:+ approvalId)) "status"
    = Some (VStr (decision_name outcome1))
  ∧ second = POST_approvals approvalId (VObj reqBody2) now2 kv
  ∧ second.2 !! ("approval_step:" +:+ approvalId) = Some (decided (VObj step) reqBody2 now2)
  ∧ property (second.2 !! ("approval_step:" +:+ approvalId)) "status"
    = Some (VStr (decision_name outcome2))
  ∧ property (second.2 !! ("approval_step:" +:+ approvalId)) "comments"
    = Some (or_null (reqBody2 !! "comments"))
  ∧ property (second.2 !! ("approval_step:" +:+ approvalId)) "decided_at"
    = Some (VStr (toISOString now2))
  ∧ ∀ expense_id,
      template (step !! "expense_id") = Normal expense_id →
      first.1 = Response 200 (Some (json (decided (VObj step) reqBody1 now1)))
      ∧ second.1 = Response 200 (Some (json (decided (VObj step) reqBody2 now2)))
      ∧ ∀ expense,
          kv !! ("expense:" +:+ expense_id) = Some expense →
          truthy (Some expense) = true →
          second.2 !! ("expense:" +:+ expense_id)
          = Some (with_status (Some expense) (Some (VStr (decision_name outcome2)))).
Proof.
  intros Hstep Hstatus1 Hstatus2 first second.
  set (step_key := "approval_step:" +:+ approvalId) in *.
  pose proof (POST_approvals_found _ _ _ reqBody1 now1 Hstep eq_refl) as Hfirst.
  pose proof (POST_approvals_found _ _ _ reqBody2 now2 Hstep eq_refl) as Hsingle.
  pose proof (POST_approvals_step _ _ _ reqBody1 now1 Hstep eq_refl) as Hfirst_step.
  pose proof (POST_approvals_step _ _ _ reqBody2 now2 Hstep eq_refl) as Hsingle_step.
  cbn zeta in Hfirst, Hsingle. cbn [own_property] in Hfirst, Hsingle.
  fold step_key first in Hfirst, Hsingle, Hfirst_step, Hsingle_step.
  assert (Hsecond : second = POST_approvals approvalId (VObj reqBody2) now2 kv).
  { subst second. rewrite (POST_approvals_found _ _ _ _ _ Hfirst_step eq_refl). cbn zeta.
    rewrite Hsingle, decided_other by done. cbn [spread]. fold step_key.
    rewrite (decided_again _ _ _ _ _ _ Hstatus2), Hfirst.
    destruct (template (step !! "expense_id")) as [expense_id|]; cbn [snd];
      [|by rewrite insert_insert_eq].
    set (expense_key := "expense:" +:+ expense_id).
    assert (Hkeys : step_key ≠ expense_key) by apply step_key_not_expense_key.
    f_equal. destruct (truthy (kv !! expense_key)) eqn:Htruthy.
    - rewrite lookup_insert_eq. unfold with_status at 1. cbn [truthy].
      rewrite Hstatus1, Hstatus2, with_status_again.
      apply map_eq. intros key.
      destruct (decide (key = expense_key)) as [->|]; [by rewrite !lookup_insert_eq|].
      destruct (decide (key = step_key)) as [->|].
      + rewrite !(lookup_insert_ne _ expense_key step_key) by done.
        by rewrite !lookup_insert_eq.
      + by rewrite !lookup_insert_ne.
    - rewrite lookup_insert_ne, Htruthy by done. by rewrite insert_insert_eq. }
  rewrite Hsecond, Hfirst_step, Hsingle_step. cbn [property mbind option_bind].
  rewrite !decided_status.
  split_and!; [done|done|done|done|apply decided_comments|apply decided_decided_at|].
  intros expense_id Hid. rewrite Hfirst, Hsingle, Hid. split_and!; [done|done|].
  intros expense Hexpense Htruthy. cbn [snd].
  rewrite Hexpense, Htruthy, Hstatus2. by rewrite lookup_insert_eq.
Qed.

(** *** Expense submission *)

(** The expense is written first, whatever happens next. *)
Lemma POST_expenses_persists kv expenseData now_id now_created now_step_id now_step_created :
  (POST_expenses (VObj expenseData) now_id now_created now_step_id now_step_created kv).2
    !! ("expense:" +:+ "expense-" +:+ pretty now_id)
  = Some (submitted expenseData now_id now_created).
Proof.
  rewrite POST_expenses_object. cbn zeta.
  destruct (template _) as [employee_id|]; cbn [snd]; [|by rewrite lookup_insert_eq].
  destruct (property _ "manager_id") as [manager_id|];
    [destruct (truthy (Some manager_id));
       [rewrite lookup_insert_ne by apply not_eq_sym, expense_key_not_step_key|]|];
    by rewrite lookup_insert_eq.
Qed.

Lemma submitted_status expenseData now_id now_created :
  own_property (submitted expenseData now_id now_created) "status" = Some (VStr "pending").
Proof. unfold submitted. cbn [own_property]. by simplify_map_eq. Qed.

Lemma submitted_property expenseData now_id now_created name :
  name ≠ "created_at" → name ≠ "status" → name ≠ "id" →
  own_property (submitted expenseData now_id now_created) name = expenseData !! name.
Proof.
  intros ? ? ?. unfold submitted. cbn [own_property].
  rewrite !lookup_insert_ne by done.
  destruct (expenseData !! name) as [v|] eqn:Hname.
  - by apply lookup_union_Some_l.
  - apply lookup_union_None. split; [done|]. by rewrite lookup_singleton_ne.
Qed.

(** C3.  When the store holds the employee's user record, under
    [user:{employee_id}], and the record has a (truthy) [manager_id], the
    route answers 200 with the new expense, as JSON, and writes two records
    and nothing else: the expense, with status [pending], and one approval step
    with sequence 1, status [pending], the manager as [approver_id] and the
    new expense's id as [expense_id]. *)
Theorem submit_with_manager
    kv expenseData employee_id user manager_id now_id now_created now_step_id
    now_step_created :
  template (expenseData !! "employee_id") = Normal employee_id →
  kv !! ("user:" +:+ employee_id) = Some user →
  own_property user "manager_id" = Some manager_id →
  truthy (Some manager_id) = true →
  let expenseId := "expense-" +:+ pretty now_id in
  let expense := submitted expenseData now_id now_created in
  let approvalStep := first_step manager_id now_id now_step_id now_step_created in
  let step_key := "approval_step:" +:+ "approval-" +:+ pretty now_step_id in
  let result :=
    POST_expenses (VObj expenseData) now_id now_created now_step_id now_step_created kv in
  result = (Response 200 (Some (json expense)),
            <[step_key := approvalStep]> (<["expense:" +:+ expenseId := expense]> kv))
  ∧ result.2 !! ("expense:" +:+ expenseId) = Some expense
  ∧ own_property expense "status" = Some (VStr "pending")
  ∧ result.2 !! step_key = Some approvalStep
  ∧ own_property approvalStep "sequence" = Some (VNum 1%float)
  ∧ own_property approvalStep "status" = Some (VStr "pending")
  ∧ own_property approvalStep "approver_id" = Some manager_id
  ∧ own_property approvalStep "expense_id" = Some (VStr expenseId)
  ∧ ∀ key, key ≠ "expense:" +:+ expenseId → key ≠ step_key → result.2 !! key = kv !! key.
Proof.
  intros Hid Huser Hmanager Htruthy expenseId expense approvalStep step_key result.
  assert (Hresult : result =
    (Response 200 (Some (json expense)),
     <[step_key := approvalStep]> (<["expense:" +:+ expenseId := expense]> kv))).
  { subst result. rewrite POST_expenses_object. cbn zeta.
    rewrite Hid, Huser. cbn [property mbind option_bind]. by rewrite Hmanager, Htruthy. }
  split_and!; [done| | | | | | | |].
  - apply POST_expenses_persists.
  - apply submitted_status.
  - rewrite Hresult. cbn [snd]. by rewrite lookup_insert_eq.
  - by vm_compute.
  - by vm_compute.
  - unfold approvalStep, first_step. cbn [own_property]. by rewrite lookup_insert_eq.
  - unfold approvalStep, first_step. cbn [own_property]. by simplify_map_eq.
  - intros key Hexpense Hstep. rewrite Hresult. cbn [snd]. by rewrite !lookup_insert_ne.
Qed.


(** *** User deletion *)

(** C9.  Deleting a user whose record is stored under [user:{userId}]
    removes that record and the record under [user:email:{user.email}], so
    that the lookup of this email then answers 404; deleting an id with no
    record answers 404 and leaves the store as it was.  The email is any
    value that the key can be formed from. *)
Theorem delete_user_removes_both_records kv userId :
  (∀ user email,
     kv !! ("user:" +:+ userId) = Some user →
     truthy (Some user) = true →
     template (own_property user "email") = Normal email →
     let result := DELETE_users userId kv in
     result = (Response 200 (Some (VObj {[ "success" := VBool true ]})),
               delete ("user:email:" +:+ email) (delete ("user:" +:+ userId) kv))
     ∧ result.2 !! ("user:" +:+ userId) = None
     ∧ result.2 !! ("user:email:" +:+ email) = None
     ∧ GET_user email result.2 = (Response 404 (error_body "User not found"), result.2)
     ∧ ∀ key, key ≠ "user:" +:+ userId → key ≠ "user:email:" +:+ email →
         result.2 !! key = kv !! key)
  ∧ (kv !! ("user:" +:+ userId) = None →
     DELETE_users userId kv = (Response 404 (error_body "User not found"), kv)).
Proof.
  split.
  - intros user email Huser Htruthy Hemail_text result.
    assert (Hresult : result =
      (Response 200 (Some (VObj {[ "success" := VBool true ]})),
       delete ("user:email:" +:+ email) (delete ("user:" +:+ userId) kv))).
    { subst result. by rewrite (DELETE_users_found _ _ _ Huser Htruthy), Hemail_text. }
    assert (Hemail : result.2 !! ("user:email:" +:+ email) = None).
    { rewrite Hresult. cbn [snd]. apply lookup_delete_eq. }
    split_and!; [done| |done| |].
    + rewrite Hresult. cbn [snd]. rewrite lookup_delete_None. right.
      apply lookup_delete_eq.
    + by apply GET_user_missing.
    + intros key Hkey Hkey_email. rewrite Hresult. cbn [snd].
      by rewrite !lookup_delete_ne.
  - intros Huser. unfold DELETE_users. run_route. by rewrite Huser.
Qed.

(** *** Currency conversion *)

Example Math_round_ties_go_up :
  Number.Math_round 12.5%float = 13%float
  ∧ Number.Math_round (-2.5)%float = (-2)%float
  ∧ Number.Math_round 123456.5%float = 123457%float.
Proof. by vm_compute. Qed.

Example Math_round_nearest :
  Number.Math_round 2.4999%float = 2%float
  ∧ Number.Math_round (-2.6)%float = (-3)%float
  ∧ Number.Math_round 42%float = 42%float
  ∧ Number.Math_round 0.4%float = 0%float
  ∧ Number.Math_round (-0.4)%float = (-0)%float.
Proof. by vm_compute. Qed.

Example convertedAmount_samples :
  convertedAmount "USD" "EUR" 100%float = Normal 85%float
  ∧ convertedAmount "JPY" "USD" 1000%float = Normal 9.1%float
  ∧ convertedAmount "CAD" "USD" 120%float = Normal 120%float.
Proof. by vm_compute. Qed.

Lemma iter_shr_1_exact (k : nat) (m : positive) :
  Nat.iter k shr_1 {| shr_m := Zpos (Nat.iter k xO m); shr_r := false; shr_s := false |}
  = {| shr_m := Zpos m; shr_r := false; shr_s := false |}.
Proof.
  induction k as [|k IH]; [reflexivity|].
  rewrite Nat.iter_succ_r. exact IH.
Qed.

Lemma digits2_iter_xO (k : nat) (m : positive) :
  Zpos (digits2_pos (Nat.iter k xO m)) = Zpos (digits2_pos m) + Z.of_nat k.
Proof.
  induction k as [|k IH]; [by rewrite Z.add_0_r|].
  change (Nat.iter (S k) xO m) with (xO (Nat.iter k xO m)).
  cbn [digits2_pos]. rewrite Pos2Z.inj_succ, IH. lia.
Qed.

Lemma iter_pos_52 {A} (f : A → A) (x : A) :
  SpecFloat.iter_pos f 52 x = Nat.iter 52 f x.
Proof. reflexivity. Qed.

(** Multiplying by the float 1 is exact: the product of the mantissa with
    2^52 is shifted back by 52 bits with nothing lost. *)
Lemma SF64mul_1_r (x : spec_float) :
  valid_binary prec emax x = true → SF64mul x (Prim2SF 1%float) = x.
Proof.
  destruct x as [s|s| |s m e]; try (destruct s; reflexivity); [reflexivity|].
  intros Hvalid.
  change (Prim2SF 1%float) with (S754_finite false 4503599627370496 (-52)).
  unfold SF64mul, SFmul. rewrite xorb_false_r.
  cbn [valid_binary] in Hvalid. unfold bounded, canonical_mantissa in Hvalid.
  apply andb_prop in Hvalid as [Hcanonical Hmax].
  apply Z.eqb_eq in Hcanonical.
  assert (Hshift : (m * 4503599627370496)%positive = Nat.iter 52 xO m)
    by (rewrite Pos.mul_comm; reflexivity).
  rewrite Hshift. unfold binary_round_aux, shr_fexp, Zdigits2.
  rewrite digits2_iter_xO.
  assert (Hfexp :
    fexp prec emax (Zpos (digits2_pos m) + Z.of_nat 52 + (e + -52)) - (e + -52) = 52).
  { replace (Zpos (digits2_pos m) + Z.of_nat 52 + (e + -52))
      with (Zpos (digits2_pos m) + e) by lia.
    rewrite Hcanonical. lia. }
  rewrite Hfexp. unfold shr at 1.
  change (shr_record_of_loc (Zpos (Nat.iter 52 xO m)) loc_Exact)
    with {| shr_m := Zpos (Nat.iter 52 xO m); shr_r := false; shr_s := false |}.
  rewrite iter_pos_52, iter_shr_1_exact.
  cbn [shr_m loc_of_shr_record shr_r shr_s round_nearest_even shr_record_of_loc].
  replace (e + -52 + 52) with e by lia.
  rewrite Hcanonical, Z.sub_diag. cbn [shr shr_m].
  by rewrite Hmax.
Qed.

Lemma float_mul_1_r (x : float) : (x * 1)%float = x.
Proof.
  apply Prim2SF_inj. rewrite mul_spec. apply SF64mul_1_r, Prim2SF_valid.
Qed.

(** A product with [NaN] is [NaN]. *)
Lemma float_mul_nan_r (x : float) : (x * nan)%float = nan.
Proof.
  apply Prim2SF_inj. rewrite mul_spec.
  change (Prim2SF nan) with S754_nan. by destruct (Prim2SF x).
Qed.

Lemma round2_nan : Number.round2 nan = nan.
Proof. by vm_compute. Qed.


(** Every rate of the table is a truthy number, so [|| 1] keeps it. *)
Lemma table_rate_truthy (from to : string) (r : float) :
  table_rate from to = Some r → Number.truthy r = true.
Proof.
  unfold table_rate, conversionRates. intros Hrate.
  apply bind_Some in Hrate as (row & Hrow & Hrate).
  apply elem_of_list_to_map_2 in Hrow.
  repeat (apply elem_of_cons in Hrow as [Hrow|Hrow];
          [ injection Hrow as _ ->;
            repeat (apply lookup_insert_Some in Hrate as [[_ <-]|[_ Hrate]];
                    [by vm_compute|]);
            by rewrite lookup_empty in Hrate | ]).
  by apply elem_of_nil in Hrow.
Qed.

(** An own property shadows whatever the prototype has under its name. *)
Lemma lookup_rate_table (from to : string) (r : float) :
  table_rate from to = Some r → lookup_rate from to = Normal (a_number r).
Proof.
  unfold table_rate, lookup_rate. intros Hrate.
  apply bind_Some in Hrate as (row & -> & ->). done.
Qed.

Lemma rate_or_1_table (from to : string) (r : float) :
  table_rate from to = Some r → rate_or_1 from to = Normal (a_number r).
Proof.
  intros Hrate. unfold rate_or_1. rewrite (lookup_rate_table _ _ _ Hrate).
  cbn. by rewrite (table_rate_truthy _ _ _ Hrate).
Qed.

Lemma convertedAmount_table (x : float) (from to : string) (r : float) :
  table_rate from to = Some r → convertedAmount from to x = Normal (Number.round2 (x * r)).
Proof. intros Hrate. unfold convertedAmount. by rewrite (rate_or_1_table _ _ _ Hrate). Qed.

Lemma convertedAmount_default (x : float) (from to : string) :
  lookup_rate from to = Normal nothing → convertedAmount from to x = Normal (Number.round2 x).
Proof.
  intros Hrate. unfold convertedAmount, rate_or_1. rewrite Hrate. cbn.
  by rewrite float_mul_1_r.
Qed.

Lemma GET_convert_run from to x kv rate :
  rate_or_1 from to = Normal rate →
  GET_convert from to x kv =
    (Response 200 (Some (VObj (json <$> set_prop "rate" (to_json rate) (list_to_map
       [ ("originalAmount", VNum x);
         ("convertedAmount",
          VNum (Number.Math_round (x * to_number rate * 100) / 100)%float);
         ("fromCurrency", VStr from);
         ("toCurrency", VStr to) ])))), kv).
Proof. intros Hrate. unfold GET_convert. run_route. by rewrite Hrate. Qed.

Lemma GET_convert_throws from to x kv :
  rate_or_1 from to = Thrown →
  GET_convert from to x kv =
    (Response 500 (Some (VObj {[ "error" := VStr "Failed to convert currency" ]})), kv).
Proof. intros Hrate. unfold GET_convert. run_route. by rewrite Hrate. Qed.

(** The currencies that the form offers reach no member of
    [Object.prototype]: four are rows of the table, with a rate to ['USD'],
    and the other four find nothing. *)
Lemma currencies_rate (c : string) :
  c ∈ currencies → ∃ r, rate_or_1 c "USD" = Normal (a_number r).
Proof.
  intros Hc. unfold currencies in Hc.
  repeat (apply elem_of_cons in Hc as [->|Hc];
          [first [ by exists 1%float; vm_compute | by exists 1.18%float; vm_compute
                 | by exists 1.37%float; vm_compute | by exists 0.0091%float; vm_compute ]|]).
  by apply elem_of_nil in Hc.
Qed.

(** *** Conversion on submission *)

Lemma request_POST_expenses kv expenseData now_id now_created now_step_id now_step_created :
  request (POST_expenses (VObj expenseData) now_id now_created now_step_id now_step_created) kv
  = (match template (expenseData !! "employee_id") with
     | Normal _ => Normal (Some (json (submitted expenseData now_id now_created)))
     | Thrown => Thrown
     end,
     (POST_expenses (VObj expenseData) now_id now_created now_step_id now_step_created kv).2).
Proof.
  unfold request. rewrite POST_expenses_object. cbn zeta.
  by destruct (template (expenseData !! "employee_id")).
Qed.

Lemma json_json_number (x : float) : json (json_number x) = json_number x.
Proof.
  unfold json_number.
  destruct (PrimFloat.is_nan x || PrimFloat.is_infinity x) eqn:Hfinite; [done|].
  destruct (PrimFloat.is_zero x) eqn:Hzero; [done|].
  cbn [json]. unfold json_number. by rewrite Hfinite, Hzero.
Qed.

(** JSON changes the text of a value but not whether it has one: an own
    [toString] property stays where it is. *)
Lemma ToString_json (v : value) :
  match ToString (json v) with Normal _ => true | Thrown => false end
  = match ToString v with Normal _ => true | Thrown => false end.
Proof.
  revert v. fix IH 1. intros [| [|] |x|s|elements|fields].
  1-3, 5: done.
  - cbn [json]. unfold json_number.
    by destruct (PrimFloat.is_nan x || PrimFloat.is_infinity x), (PrimFloat.is_zero x).
  - cbn [json ToString].
    assert (Helement : ∀ v,
      match match json v with VNull => Normal "" | _ => ToString (json v) end
      with Normal _ => true | Thrown => false end
      = match match v with VNull => Normal "" | _ => ToString v end
        with Normal _ => true | Thrown => false end).
    { intros v. specialize (IH v).
      destruct v as [| | x | | |]; try exact IH.
      cbn [json]. unfold json_number.
      by destruct (PrimFloat.is_nan x || PrimFloat.is_infinity x), (PrimFloat.is_zero x). }
    induction elements as [|v rest IHrest]; [done|].
    destruct rest as [|w rest]; [exact (Helement v)|].
    specialize (Helement v).
    change (json <$> v :: w :: rest) with (json v :: json w :: (json <$> rest)).
    change (json <$> w :: rest) with (json w :: (json <$> rest)) in IHrest.
    cbv beta iota in *.
    destruct (match json v with VNull => Normal "" | _ => _ end),
      (match v with VNull => Normal "" | _ => _ end); try done.
    match goal with
    | |- match match ?a with _ => _ end with _ => _ end
         = match match ?b with _ => _ end with _ => _ end => by destruct a, b
    end.
  - cbn [json ToString]. rewrite lookup_fmap. by destruct (fields !! "toString").
Qed.

Lemma template_json (v : jsval) :
  match template (json <$> v) with Normal _ => true | Thrown => false end
  = match template v with Normal _ => true | Thrown => false end.
Proof. destruct v as [v|]; [apply ToString_json|done]. Qed.

(** The body that the form posts. *)
Lemma handleSubmit_run user form receiptUrl now_id now_created now_step_id now_step_created
    kv rate :
  rate_or_1 (currency form) "USD" = Normal rate →
  handleSubmit user form receiptUrl now_id now_created now_step_id now_step_created kv =
    let converted := (Number.Math_round (amount form * to_number rate * 100) / 100)%float in
    let expenseData :=
      json <$> <["amount_in_company_currency" := json_number converted]>
        (set_prop "employee_id" (optional_id user) (list_to_map
           [ ("amount", json_number (amount form));
             ("currency", VStr (currency form));
             ("category", VStr (category form));
             ("description", VStr (description form));
             ("date", VStr (date form));
             ("receipt_url", receiptUrl) ])) in
    (match template (optional_id user) with Normal _ => true | Thrown => false end,
     (POST_expenses (VObj expenseData) now_id now_created now_step_id now_step_created kv).2).
Proof.
  intros Hrate. unfold handleSubmit. run_route.
  unfold request at 1. rewrite (GET_convert_run _ _ _ _ _ Hrate). cbn [code body].
  change ((200 <=? 200) && (200 <=? 299)) with true. cbn iota.
  rewrite member_object.
  replace ((json <$> set_prop "rate" _ _) !! "convertedAmount")
    with (Some (json_number (Number.Math_round (amount form * to_number rate * 100) / 100)%float)).
  2:{ symmetry. rewrite lookup_fmap.
      destruct (to_json rate); cbn [set_prop]; by simplify_map_eq. }
  run_route. cbn [set_prop json]. rewrite request_POST_expenses.
  rewrite lookup_fmap, lookup_insert_ne by done.
  replace (set_prop "employee_id" (optional_id user) _ !! "employee_id")
    with (optional_id user).
  2:{ symmetry. destruct (optional_id user); cbn [set_prop];
        [by rewrite lookup_insert_eq | by rewrite lookup_delete_eq]. }
  pose proof (template_json (optional_id user)) as Hsame.
  by destruct (template (json <$> optional_id user)), (template (optional_id user)).
Qed.

(** C5 (as amended).  The route [POST /expenses] converts nothing: the
    expense it persists carries the [amount_in_company_currency] of the
    request body, or none when the body has none.  The conversion is the
    form's: [handleSubmit] asks the conversion route for the amount in
    ['USD'], the company currency it fixes, and sends the answer in the
    body, so an expense submitted through the form, in one of the currencies
    the form offers, is persisted as [pending] with
    [amount_in_company_currency] equal to the route's [convertedAmount]; the
    form reports success when the signed-in user's id is one that the
    route can form a key from.  For the demo employee, 120 USD through the
    form gives one pending expense with 120 and one pending step for
    [manager-001]. *)
Theorem form_converts_before_submitting kv now_id now_created now_step_id now_step_created :
  (∀ expenseData,
     property
       ((POST_expenses (VObj expenseData) now_id now_created now_step_id now_step_created kv).2
          !! ("expense:" +:+ "expense-" +:+ pretty now_id))
       "amount_in_company_currency"
     = expenseData !! "amount_in_company_currency")
  ∧ (∀ user form receiptUrl,
       currency form ∈ currencies →
       let result :=
         handleSubmit user form receiptUrl now_id now_created now_step_id now_step_created kv in
       let persisted := result.2 !! ("expense:" +:+ "expense-" +:+ pretty now_id) in
       ∃ converted,
         convertedAmount (currency form) "USD" (amount form) = Normal converted
         ∧ property persisted "status" = Some (VStr "pending")
         ∧ property persisted "amount_in_company_currency" = Some (json_number converted)
         ∧ (result.1 = true ↔ ∃ id, template (optional_id user) = Normal id))
  ∧ (let result :=
       handleSubmit (sample_store !! "user:employee-001") sample_form VNull
         1705363200000 1705363200000 1705363200001 1705363200001 sample_store in
     let persisted := result.2 !! "expense:expense-1705363200000" in
     let step := result.2 !! "approval_step:approval-1705363200001" in
     result.1 = true
     ∧ property persisted "status" = Some (VStr "pending")
     ∧ property persisted "amount_in_company_currency" = Some (VNum 120%float)
     ∧ property step "status" = Some (VStr "pending")
     ∧ property step "approver_id" = Some (VStr "manager-001")
     ∧ property step "expense_id" = Some (VStr "expense-1705363200000")).
Proof.
  split_and!.
  - intros expenseData. rewrite POST_expenses_persists. cbn [property mbind option_bind].
    by apply submitted_property.
  - intros user form receiptUrl Hcurrency result persisted.
    destruct (currencies_rate _ Hcurrency) as [r Hrate].
    exists (Number.Math_round (amount form * r * 100) / 100)%float.
    subst persisted result. rewrite (handleSubmit_run _ _ _ _ _ _ _ _ _ Hrate).
    cbn zeta. cbn [fst snd to_number a_number].
    rewrite POST_expenses_persists. cbn [property mbind option_bind].
    split_and!.
    + unfold convertedAmount. by rewrite Hrate.
    + apply submitted_status.
    + rewrite submitted_property by done.
      rewrite lookup_fmap, lookup_insert_eq. cbn [fmap option_fmap option_map].
      by rewrite json_json_number.
    + destruct (template (optional_id user)) as [id|]; split; try done; [by exists id|].
      by intros [id Hid].
  - by vm_compute.
Qed.

(** *** Currency conversion *)

(** A name of a function of [Object.prototype] is no key of a row of the
    table, and a row answers that function for it. *)
Lemma rate_or_1_inherited (A B : string) :
  is_Some (conversionRates !! A) → B ∈ Object_prototype_functions →
  table_rate A B = None ∧ rate_or_1 A B = Normal a_function.
Proof.
  intros [row Hrow] HB. apply elem_of_list_to_map_2 in Hrow.
  unfold Object_prototype_functions in HB.
  repeat (apply elem_of_cons in Hrow as [Hrow|Hrow];
          [ injection Hrow as -> _;
            repeat (apply elem_of_cons in HB as [->|HB]; [by vm_compute|]);
            by apply elem_of_nil in HB | ]).
  by apply elem_of_nil in Hrow.
Qed.

(** C6.  The default does not reach every pair that is missing from the
    table.  For a row [A] of the table and the name [B] of a function that
    every object inherits ([constructor], [toString], ...), the pair is not
    in the table, yet [conversionRates[A]?.[B]] finds the function: the rate
    is not 1, the product is [NaN] for every amount, and the route answers
    200 with [convertedAmount: null] and no [rate]. *)
Theorem inherited_name_defeats_default (x : float) (A B : string) kv :
  is_Some (conversionRates !! A) →
  B ∈ Object_prototype_functions →
  table_rate A B = None
  ∧ convertedAmount A B x = Normal nan
  ∧ GET_convert A B x kv =
      (Response 200 (Some (VObj (list_to_map
         [ ("originalAmount", json_number x);
           ("convertedAmount", VNull);
           ("fromCurrency", VStr A);
           ("toCurrency", VStr B) ]))), kv).
Proof.
  intros HA HB. destruct (rate_or_1_inherited _ _ HA HB) as [Htable Hrate].
  assert (Hnan : (Number.Math_round (x * to_number a_function * 100) / 100)%float = nan).
  { cbn [to_number a_function]. rewrite float_mul_nan_r. by vm_compute. }
  split_and!; [done| |].
  - unfold convertedAmount. rewrite Hrate. unfold mbind, completion_bind.
    by rewrite Hnan.
  - rewrite (GET_convert_run _ _ _ _ _ Hrate), Hnan. cbn [to_json a_function set_prop].
    reflexivity.
Qed.

(** The client helper returns a same-currency amount as it is. *)
Lemma convertCurrency_same_currency (x : float) (A : string) :
  convertCurrency x A A = Normal x.
Proof. unfold convertCurrency. by rewrite decide_True. Qed.

(** The route has no same-currency case: it rounds such an amount like any
    other, to [Math.round(x * 100) / 100], for the currencies of the table. *)
Lemma convertedAmount_same_currency (x : float) (A : string) :
  is_Some (conversionRates !! A) → convertedAmount A A x = Normal (Number.round2 x).
Proof.
  intros [row Hrow]. apply elem_of_list_to_map_2 in Hrow.
  assert (table_rate A A = Some 1%float) as Hrate.
  { repeat (apply elem_of_cons in Hrow as [Hrow|Hrow];
            [injection Hrow as -> _; by vm_compute|]).
    by apply elem_of_nil in Hrow. }
  by rewrite (convertedAmount_table _ _ _ _ Hrate), float_mul_1_r.
Qed.

(** C2.  On the route, 0.125 USD converted to USD comes back as 0.13, not
    as 0.125; the client helper returns 0.125. *)
Theorem route_rounds_same_currency :
  convertedAmount "USD" "USD" 0.125%float = Normal 0.13%float
  ∧ PrimFloat.eqb 0.13%float 0.125%float = false
  ∧ (GET_convert "USD" "USD" 0.125%float ∅).1
    = Response 200 (Some (VObj (list_to_map
        [ ("originalAmount", VNum 0.125%float);
          ("convertedAmount", VNum 0.13%float);
          ("fromCurrency", VStr "USD");
          ("toCurrency", VStr "USD");
          ("rate", VNum 1%float) ])))
  ∧ convertCurrency 0.125%float "USD" "USD" = Normal 0.125%float.
Proof. by vm_compute. Qed.

(** * Further properties of the routes and of the client *)

(** *** Keys, once more *)

Lemma user_key_not_expense_key (a b : string) : "user:" +:+ a ≠ "expense:" +:+ b.
Proof. discriminate. Qed.

Lemma user_key_not_step_key (a b : string) : "user:" +:+ a ≠ "approval_step:" +:+ b.
Proof. discriminate. Qed.

Lemma company_key_not_expense_key (a b : string) : "company:" +:+ a ≠ "expense:" +:+ b.
Proof. discriminate. Qed.

Lemma company_key_not_step_key (a b : string) :
  "company:" +:+ a ≠ "approval_step:" +:+ b.
Proof. discriminate. Qed.

Lemma rule_key_not_expense_key (a b : string) :
  "approval_rule:" +:+ a ≠ "expense:" +:+ b.
Proof. discriminate. Qed.

Lemma rule_key_not_step_key (a b : string) :
  "approval_rule:" +:+ a ≠ "approval_step:" +:+ b.
Proof. intros Heq. by simplify_eq/=. Qed.


Lemma user_id_key_not_email_key (a b : string) :
  "user:" +:+ "user-" +:+ a ≠ "user:email:" +:+ b.
Proof. intros Heq. by simplify_eq/=. Qed.

(** *** The routes on any body *)

Lemma member_not_null (v : value) (name : string) :
  v ≠ VNull → member (Some v) name = mret (own_property v name).
Proof. by destruct v. Qed.

Lemma POST_expenses_any kv expenseData now_id now_created now_step_id now_step_created :
  expenseData ≠ VNull →
  POST_expenses expenseData now_id now_created now_step_id now_step_created kv =
    let expense := submitted (spread (Some expenseData)) now_id now_created in
    let kv1 := <["expense:" +:+ "expense-" +:+ pretty now_id := expense]> kv in
    match template (own_property expenseData "employee_id") with
    | Normal employee_id =>
        let user := kv !! ("user:" +:+ employee_id) in
        (c_json (Some expense),
         match property user "manager_id" with
         | Some manager_id =>
             if truthy (Some manager_id)
             then <["approval_step:" +:+ "approval-" +:+ pretty now_step_id :=
                      first_step manager_id now_id now_step_id now_step_created]> kv1
             else kv1
         | None => kv1
         end)
    | Thrown => (c_json_status (error_body "Failed to create expense") 500, kv1)
    end.
Proof.
  intros Hbody. unfold POST_expenses. rewrite member_not_null by done. run_route.
  destruct (template (own_property expenseData "employee_id")) as [employee_id|];
    [|reflexivity].
  rewrite lookup_insert_ne by apply expense_key_not_user_key.
  destruct (kv !! ("user:" +:+ _)) as [user|] eqn:Huser; [|reflexivity].
  destruct (truthy (Some user)) eqn:Htruthy.
  - rewrite member_truthy by done. run_route. cbn [property mbind option_bind andb].
    destruct (own_property user "manager_id") as [manager_id|]; [|reflexivity].
    destruct (truthy (Some manager_id)); reflexivity.
  - run_route. cbn [andb property mbind option_bind].
    destruct user; try discriminate Htruthy; reflexivity.
Qed.

Lemma POST_expenses_null kv now_id now_created now_step_id now_step_created :
  POST_expenses VNull now_id now_created now_step_id now_step_created kv =
    (Response 500 (Some (VObj {[ "error" := VStr "Failed to create expense" ]})),
     <["expense:" +:+ "expense-" +:+ pretty now_id := submitted ∅ now_id now_created]> kv).
Proof. reflexivity. Qed.

Lemma POST_approvals_any kv approvalId reqBody now :
  reqBody ≠ VNull →
  POST_approvals approvalId reqBody now kv
  = POST_approvals approvalId (VObj (fields_of reqBody)) now kv.
Proof. intros Hbody. by destruct reqBody. Qed.

Lemma POST_approvals_null kv approvalId now :
  POST_approvals approvalId VNull now kv =
    (Response 500 (Some (VObj {[ "error" := VStr "Failed to process approval" ]})), kv).
Proof. reflexivity. Qed.

(** *** What every served store satisfies *)

Lemma null_or_not (v : value) : v = VNull ∨ v ≠ VNull.
Proof. destruct v; (by left) || (by right). Qed.

Lemma consistent_empty : consistent ∅.
Proof. split; intros id v Hlookup; by rewrite lookup_empty in Hlookup. Qed.

Lemma consistent_insert_expense kv id fields :
  consistent kv → consistent (<["expense:" +:+ id := VObj fields]> kv).
Proof.
  intros [Hexpenses Hsteps]. split.
  - intros id' v Hlookup. apply lookup_insert_Some in Hlookup as [[_ <-]|[_ Hlookup]];
      [by eexists | by eapply Hexpenses].
  - intros id' v Hlookup.
    rewrite lookup_insert_ne in Hlookup by apply expense_key_not_step_key.
    destruct (Hsteps _ _ Hlookup) as (Hobject & expense_id & Hid & Hexpense).
    split; [done|]. exists expense_id. split; [done|].
    apply lookup_insert_is_Some'. by right.
Qed.

Lemma consistent_insert_step kv id fields expense_id :
  consistent kv →
  template (fields !! "expense_id") = Normal expense_id →
  is_Some (kv !! ("expense:" +:+ expense_id)) →
  consistent (<["approval_step:" +:+ id := VObj fields]> kv).
Proof.
  intros [Hexpenses Hsteps] Hid Hexpense. split.
  - intros id' v Hlookup.
    rewrite lookup_insert_ne in Hlookup by apply step_key_not_expense_key.
    by eapply Hexpenses.
  - intros id' v Hlookup.
    apply lookup_insert_Some in Hlookup as [[_ <-]|[_ Hlookup]].
    + split; [by eexists|]. exists expense_id. split; [done|].
      by rewrite lookup_insert_ne by apply step_key_not_expense_key.
    + destruct (Hsteps _ _ Hlookup) as (Hobject & expense_id' & Hid' & Hexpense').
      split; [done|]. exists expense_id'. split; [done|].
      by rewrite lookup_insert_ne by apply step_key_not_expense_key.
Qed.

Lemma consistent_insert_other kv key v :
  (∀ id, key ≠ "expense:" +:+ id) → (∀ id, key ≠ "approval_step:" +:+ id) →
  consistent kv → consistent (<[key := v]> kv).
Proof.
  intros Hexpense_key Hstep_key [Hexpenses Hsteps]. split.
  - intros id' v' Hlookup. rewrite lookup_insert_ne in Hlookup by done.
    by eapply Hexpenses.
  - intros id' v' Hlookup. rewrite lookup_insert_ne in Hlookup by done.
    destruct (Hsteps _ _ Hlookup) as (Hobject & expense_id & Hid & Hexpense).
    split; [done|]. exists expense_id. split; [done|]. by rewrite lookup_insert_ne.
Qed.

Lemma consistent_delete_other kv key :
  (∀ id, key ≠ "expense:" +:+ id) → (∀ id, key ≠ "approval_step:" +:+ id) →
  consistent kv → consistent (delete key kv).
Proof.
  intros Hexpense_key Hstep_key [Hexpenses Hsteps]. split.
  - intros id' v' Hlookup. rewrite lookup_delete_ne in Hlookup by done.
    by eapply Hexpenses.
  - intros id' v' Hlookup. rewrite lookup_delete_ne in Hlookup by done.
    destruct (Hsteps _ _ Hlookup) as (Hobject & expense_id & Hid & Hexpense).
    split; [done|]. exists expense_id. split; [done|]. by rewrite lookup_delete_ne.
Qed.

Lemma first_step_expense_id manager_id now_id now_step_id now_step_created :
  own_property (first_step manager_id now_id now_step_id now_step_created) "expense_id"
  = Some (VStr ("expense-" +:+ pretty now_id)).
Proof. unfold first_step. cbn [own_property]. by simplify_map_eq. Qed.

Lemma POST_expenses_consistent kv expenseData now_id now_created now_step_id now_step_created :
  consistent kv →
  consistent
    (POST_expenses expenseData now_id now_created now_step_id now_step_created kv).2.
Proof.
  intros Hkv. destruct (null_or_not expenseData) as [->|Hbody].
  - rewrite POST_expenses_null. by apply consistent_insert_expense.
  - rewrite POST_expenses_any by done. cbn zeta.
    pose proof (consistent_insert_expense _ ("expense-" +:+ pretty now_id)
      _ Hkv : consistent (<[_ := submitted (spread (Some expenseData)) now_id now_created]> kv))
      as Hkv1.
    destruct (template _) as [employee_id|]; cbn [snd]; [|done].
    destruct (property _ "manager_id") as [manager_id|]; [|done].
    destruct (truthy (Some manager_id)); [|done].
    apply (consistent_insert_step _ _ _ ("expense-" +:+ pretty now_id)); [done| |].
    + pose proof (first_step_expense_id manager_id now_id now_step_id now_step_created)
        as Hid.
      unfold first_step in Hid. cbn [own_property] in Hid. by rewrite Hid.
    + rewrite lookup_insert_eq. by eexists.
Qed.

Lemma POST_approvals_consistent kv approvalId reqBody now :
  consistent kv → consistent (POST_approvals approvalId reqBody now kv).2.
Proof.
  intros Hkv. destruct (null_or_not reqBody) as [->|Hbody].
  { by rewrite POST_approvals_null. }
  rewrite POST_approvals_any by done.
  destruct (kv !! ("approval_step:" +:+ approvalId)) as [approval|] eqn:Hstep;
    [|by rewrite POST_approvals_missing by (by rewrite Hstep)].
  destruct (proj2 Hkv _ _ Hstep) as ([step ->] & expense_id & Hid & [expense Hexpense]).
  rewrite (POST_approvals_found _ _ _ _ _ Hstep eq_refl). cbn zeta.
  rewrite Hid. cbn [snd]. rewrite Hexpense.
  destruct (proj1 Hkv _ _ Hexpense) as [fields ->]. cbn [truthy].
  apply consistent_insert_expense, (consistent_insert_step _ _ _ expense_id); [done| |done].
  change (?m !! "expense_id") with (own_property (VObj m) "expense_id").
  fold (decided (VObj step) (fields_of reqBody) now).
  by rewrite decided_other.
Qed.

Lemma DELETE_users_consistent kv userId :
  consistent kv → consistent (DELETE_users userId kv).2.
Proof.
  intros Hkv. destruct (kv !! ("user:" +:+ userId)) as [user|] eqn:Huser.
  - destruct (truthy (Some user)) eqn:Htruthy.
    + rewrite (DELETE_users_found _ _ _ Huser Htruthy).
      assert (consistent (delete ("user:" +:+ userId) kv)) as Hkv1.
      { apply consistent_delete_other;
          [intros; apply user_key_not_expense_key|intros; apply user_key_not_step_key|done]. }
      destruct (template _) as [email|]; cbn [snd]; [|done].
      apply consistent_delete_other;
        [intros; apply (user_key_not_expense_key ("email:" +:+ _))
        |intros; apply (user_key_not_step_key ("email:" +:+ _))|done].
    + unfold DELETE_users. run_route. by rewrite Huser, Htruthy.
  - unfold DELETE_users. run_route. by rewrite Huser.
Qed.

Lemma POST_users_consistent kv userData now_id now_created :
  consistent kv → consistent (POST_users userData now_id now_created kv).2.
Proof.
  intros Hkv. unfold POST_users.
  assert (consistent (<["user:" +:+ "user-" +:+ pretty now_id :=
    VObj (<["createdAt" := VStr (toISOString now_created)]>
          (<["companyId" := VStr "demo-company-001"]>
           (spread (Some userData) ∪ {[ "id" := VStr ("user-" +:+ pretty now_id) ]})))]> kv))
    as Hkv1.
  { apply consistent_insert_other;
      [intros; apply user_key_not_expense_key|intros; apply user_key_not_step_key|done]. }
  destruct (null_or_not userData) as [->|Hbody]; [done|].
  rewrite member_not_null by done. run_route.
  destruct (template _) as [email|]; cbn [snd]; [|done].
  apply consistent_insert_other;
    [intros; apply (user_key_not_expense_key ("email:" +:+ _))
    |intros; apply (user_key_not_step_key ("email:" +:+ _))|done].
Qed.

Lemma POST_company_consistent kv companyData now_id now_created :
  consistent kv → consistent (POST_company companyData now_id now_created kv).2.
Proof.
  intros Hkv. unfold POST_company. run_route. cbn [snd].
  apply consistent_insert_other;
    [intros; apply company_key_not_expense_key
    |intros; apply company_key_not_step_key|done].
Qed.

Lemma POST_approval_rules_consistent kv ruleData now_id now_created :
  consistent kv → consistent (POST_approval_rules ruleData now_id now_created kv).2.
Proof.
  intros Hkv. unfold POST_approval_rules. run_route. cbn [snd].
  apply consistent_insert_other;
    [intros; apply rule_key_not_expense_key|intros; apply rule_key_not_step_key|done].
Qed.

Lemma POST_setup_consistent kv clock :
  consistent kv → consistent (POST_setup clock kv).2.
Proof.
  intros Hkv. unfold POST_setup. run_route. cbn [snd].
  apply (consistent_insert_expense _ "expense-002").
  apply (consistent_insert_expense _ "expense-001").
  repeat (apply consistent_insert_other;
          [intros id Heq; by simplify_eq/=|intros id Heq; by simplify_eq/=|]).
  done.
Qed.

Lemma serve_consistent (c : call) kv :
  consistent kv → consistent (serve c kv).2.
Proof.
  destruct c; cbn [serve];
    eauto using POST_setup_consistent, POST_company_consistent, POST_users_consistent,
      DELETE_users_consistent, POST_approval_rules_consistent, POST_expenses_consistent,
      POST_approvals_consistent.
Qed.

Lemma serve_all_consistent (calls : list call) kv :
  consistent kv → consistent (serve_all calls kv).
Proof.
  unfold serve_all. revert kv.
  induction calls as [|c calls IH]; intros kv Hkv; [done|].
  cbn [foldl]. by apply IH, serve_consistent.
Qed.

(** X1.  Whatever write requests are served from the empty store, with
    whatever bodies and clock, every record under an [expense:] or
    [approval_step:] key is an object, and every approval step names, by an
    [expense_id] that a key can be formed from, an expense that is in the
    store. *)
Theorem served_store_consistent (calls : list call) :
  consistent (serve_all calls ∅).
Proof. apply serve_all_consistent, consistent_empty. Qed.

(** X2.  On a store reached by serving requests from the empty store, a
    decision on a step that is in the store always reaches the expense: the
    route answers 200 and both the step and the expense it names carry the
    outcome.  Neither the branch that finds no expense nor a throw on the
    expense's key is met there. *)
Theorem decide_on_served_store
    (calls : list call) approvalId step reqBody (outcome : decision) now :
  serve_all calls ∅ !! ("approval_step:" +:+ approvalId) = Some step →
  own_property reqBody "status" = Some (VStr (decision_name outcome)) →
  let result := POST_approvals approvalId reqBody now (serve_all calls ∅) in
  result.1.(code) = 200
  ∧ property (result.2 !! ("approval_step:" +:+ approvalId)) "status"
    = Some (VStr (decision_name outcome))
  ∧ ∃ expense_id,
      template (own_property step "expense_id") = Normal expense_id
      ∧ property (result.2 !! ("expense:" +:+ expense_id)) "status"
        = Some (VStr (decision_name outcome)).
Proof.
  intros Hstep Hstatus result.
  pose proof (serve_all_consistent calls ∅ consistent_empty) as Hkv. subst result.
  destruct (proj2 Hkv _ _ Hstep) as ([fields ->] & expense_id & Hid & [expense Hexpense]).
  destruct (proj1 Hkv _ _ Hexpense) as [expense_fields ->].
  assert (Hbody : reqBody ≠ VNull) by (by intros ->).
  assert (Hfields : fields_of reqBody !! "status" = Some (VStr (decision_name outcome)))
    by (by destruct reqBody).
  rewrite POST_approvals_any by done.
  rewrite (POST_approvals_found _ _ _ _ _ Hstep eq_refl). cbn zeta.
  rewrite Hid, Hexpense. cbn [truthy fst snd code].
  split_and!; [done| |].
  - rewrite lookup_insert_ne by apply not_eq_sym, step_key_not_expense_key.
    rewrite lookup_insert_eq. cbn [property mbind option_bind].
    by rewrite decided_status.
  - exists expense_id. split; [done|].
    rewrite lookup_insert_eq. cbn [property mbind option_bind].
    unfold with_status. rewrite Hfields. cbn [own_property set_prop].
    by rewrite lookup_insert_eq.
Qed.

(** *** What a decision leaves alone *)

(** X3.  A decision never creates and never deletes a record: whatever the
    step id, the body and the store, the keys of the store after the request
    are the keys before it. *)
Theorem decide_keeps_keys kv approvalId reqBody now :
  dom (POST_approvals approvalId reqBody now kv).2 = dom kv.
Proof.
  destruct (null_or_not reqBody) as [->|Hbody]; [by rewrite POST_approvals_null|].
  rewrite POST_approvals_any by done.
  destruct (kv !! ("approval_step:" +:+ approvalId)) as [approval|] eqn:Hstep;
    [|by rewrite POST_approvals_missing by (by rewrite Hstep)].
  destruct (truthy (Some approval)) eqn:Htruthy;
    [|by rewrite POST_approvals_missing by (by rewrite Hstep)].
  rewrite (POST_approvals_found _ _ _ _ _ Hstep Htruthy). cbn zeta.
  assert (Hstep_dom : ∀ v, dom (<["approval_step:" +:+ approvalId := v]> kv) = dom kv).
  { intros v. apply dom_insert_lookup_L. by eexists. }
  destruct (template _) as [expense_id|]; cbn [snd]; [|done].
  destruct (kv !! ("expense:" +:+ _)) as [expense|] eqn:Hexpense; [|by cbn [truthy]].
  destruct (truthy (Some expense)); [|done].
  rewrite dom_insert_lookup_L; [done|].
  rewrite lookup_insert_ne by apply step_key_not_expense_key. by eexists.
Qed.

(** *** Users: creation, lookup and deletion *)

(** [user] of [POST /users]. *)
Lemma POST_users_object kv userData now_id now_created :
  POST_users (VObj userData) now_id now_created kv =
    let userId := "user-" +:+ pretty now_id in
    let user :=
      VObj (<["createdAt" := VStr (toISOString now_created)]>
            (<["companyId" := VStr "demo-company-001"]>
             (userData ∪ {[ "id" := VStr userId ]}))) in
    match template (userData !! "email") with
    | Normal email =>
        (Response 200 (Some (json user)),
         <["user:email:" +:+ email := VStr userId]> (<["user:" +:+ userId := user]> kv))
    | Thrown =>
        (Response 500 (Some (VObj {[ "error" := VStr "Failed to create user" ]})),
         <["user:" +:+ userId := user]> kv)
    end.
Proof.
  unfold POST_users. rewrite member_object. run_route.
  by destruct (template (userData !! "email")).
Qed.

Lemma created_user_email (userData : gmap string value) (now_id now_created : Z) :
  (<["createdAt" := VStr (toISOString now_created)]>
     (<["companyId" := VStr "demo-company-001"]>
        (userData ∪ {[ "id" := VStr ("user-" +:+ pretty now_id) ]})) : gmap string value)
    !! "email"
  = userData !! "email".
Proof.
  rewrite !lookup_insert_ne by done.
  destruct (userData !! "email") as [v|] eqn:Hemail.
  - by apply lookup_union_Some_l.
  - apply lookup_union_None. split; [done|]. by rewrite lookup_singleton_ne.
Qed.

(** X4.  A user created with an email is found by that email: after
    [POST /users] with a body whose [email] is a string, [GET /user/:email]
    answers 200 with the very record the creation answered with. *)
Theorem created_user_found_by_email kv userData email now_id now_created :
  userData !! "email" = Some (VStr email) →
  let created := POST_users (VObj userData) now_id now_created kv in
  created.1.(code) = 200
  ∧ GET_user email created.2 = (Response 200 created.1.(body), created.2)
  ∧ is_Some created.1.(body).
Proof.
  intros Hemail created. subst created. rewrite POST_users_object. cbn zeta.
  rewrite Hemail, template_string. cbn [fst snd code body].
  split_and!; [done| |by eexists].
  unfold GET_user. run_route. rewrite lookup_insert_eq.
  change (truthy (Some (VStr ("user-" +:+ pretty now_id)))) with true.
  cbn [negb]. rewrite template_string.
  rewrite lookup_insert_ne by apply not_eq_sym, user_id_key_not_email_key.
  by rewrite lookup_insert_eq.
Qed.

(** X5.  Creating a user and deleting it again is a round trip: for an
    email that a key can be formed from, when neither the key of the new
    record nor the key of its email was in use, [DELETE /users/:userId] with
    the id of the user just created answers 200 and gives back the store as
    it was before the creation. *)
Theorem create_then_delete_user kv userData email now_id now_created :
  template (userData !! "email") = Normal email →
  kv !! ("user:" +:+ "user-" +:+ pretty now_id) = None →
  kv !! ("user:email:" +:+ email) = None →
  (POST_users (VObj userData) now_id now_created kv).1.(code) = 200
  ∧ DELETE_users ("user-" +:+ pretty now_id)
      (POST_users (VObj userData) now_id now_created kv).2
    = (Response 200 (Some (VObj {[ "success" := VBool true ]})), kv).
Proof.
  intros Hemail Hfresh Hfresh_email. rewrite POST_users_object. cbn zeta.
  rewrite Hemail. cbn [fst snd code]. split; [done|].
  erewrite DELETE_users_found; [|
    rewrite lookup_insert_ne by apply not_eq_sym, user_id_key_not_email_key;
    by rewrite lookup_insert_eq | done].
  cbn [own_property]. rewrite created_user_email, Hemail. f_equal.
  apply map_eq. intros key.
  destruct (decide (key = "user:email:" +:+ email)) as [->|];
    [by rewrite lookup_delete_eq|].
  rewrite lookup_delete_ne by done.
  destruct (decide (key = "user:" +:+ "user-" +:+ pretty now_id)) as [->|];
    [by rewrite lookup_delete_eq|].
  rewrite lookup_delete_ne by done. by rewrite !lookup_insert_ne.
Qed.

(** X18.  An email that no key can be formed from, an object with a
    [toString] property of its own, leaves both requests half done.
    [POST /users] answers 500, yet the user record is in the store, without
    a record for its email; [DELETE /users/:userId] of that user answers 500
    as well, yet the user record is gone, and when its key was not in use
    before the store is again what it was. *)
Theorem unprintable_email_half_done kv userData now_id now_created :
  template (userData !! "email") = Thrown →
  let user_key := "user:" +:+ "user-" +:+ pretty now_id in
  let created := POST_users (VObj userData) now_id now_created kv in
  let deleted := DELETE_users ("user-" +:+ pretty now_id) created.2 in
  created.1 = Response 500 (Some (VObj {[ "error" := VStr "Failed to create user" ]}))
  ∧ property (created.2 !! user_key) "email" = userData !! "email"
  ∧ property (created.2 !! user_key) "companyId" = Some (VStr "demo-company-001")
  ∧ (∀ key, key ≠ user_key → created.2 !! key = kv !! key)
  ∧ deleted.1 = Response 500 (Some (VObj {[ "error" := VStr "Failed to delete user" ]}))
  ∧ deleted.2 !! user_key = None
  ∧ (kv !! user_key = None → deleted.2 = kv).
Proof.
  intros Hemail user_key created deleted. subst deleted created user_key.
  rewrite POST_users_object. cbn zeta. rewrite Hemail. cbn [fst snd].
  erewrite DELETE_users_found; [|by rewrite lookup_insert_eq|done].
  cbn [own_property]. rewrite created_user_email, Hemail. cbn [fst snd].
  rewrite lookup_insert_eq. cbn [property mbind option_bind own_property].
  split_and!; [done|apply created_user_email|by simplify_map_eq| |done| |].
  - intros key Hkey. by rewrite lookup_insert_ne.
  - by rewrite lookup_delete_eq.
  - intros Hfresh. by rewrite delete_insert_eq, delete_id.
Qed.

(** X6.  A [null] body fails after the first write.  [POST /expenses]
    answers 500 and has persisted an expense of [id], [status] and
    [created_at] alone; [POST /users] answers 500 and has persisted a user
    record without the email key; [POST /approvals/:approvalId] answers 500
    and has written nothing. *)
Theorem null_body_fails_after_first_write
    kv approvalId now_id now_created now_step_id now_step_created :
  POST_expenses VNull now_id now_created now_step_id now_step_created kv =
    (Response 500 (Some (VObj {[ "error" := VStr "Failed to create expense" ]})),
     <["expense:" +:+ "expense-" +:+ pretty now_id :=
         VObj (list_to_map
           [ ("id", VStr ("expense-" +:+ pretty now_id));
             ("status", VStr "pending");
             ("created_at", VStr (toISOString now_created)) ])]> kv)
  ∧ POST_users VNull now_id now_created kv =
    (Response 500 (Some (VObj {[ "error" := VStr "Failed to create user" ]})),
     <["user:" +:+ "user-" +:+ pretty now_id :=
         VObj (list_to_map
           [ ("id", VStr ("user-" +:+ pretty now_id));
             ("companyId", VStr "demo-company-001");
             ("createdAt", VStr (toISOString now_created)) ])]> kv)
  ∧ POST_approvals approvalId VNull now_created kv =
    (Response 500 (Some (VObj {[ "error" := VStr "Failed to process approval" ]})), kv).
Proof.
  split_and!; reflexivity.
Qed.


(** *** Approval rules are stored, never read *)






(** *** Demo data and signing in *)

Lemma DEMO_USERS_cases email password userId :
  DEMO_USERS !! email = Some (password, userId) →
  (email, password, userId) = ("admin@company.com", "admin123", "admin-001")
  ∨ (email, password, userId) = ("manager@company.com", "manager123", "manager-001")
  ∨ (email, password, userId) = ("employee@company.com", "employee123", "employee-001").
Proof.
  intros Hlookup. apply elem_of_list_to_map_2 in Hlookup.
  repeat (apply elem_of_cons in Hlookup as [Hlookup|Hlookup];
          [injection Hlookup as -> -> ->; auto|]).
  by apply elem_of_nil in Hlookup.
Qed.

(** X8.  After [POST /setup], on whatever store it ran, signing in succeeds
    exactly with the three demo pairs of email and password: with such a
    pair [authenticateUser] returns the stored user of that email, whose id
    is the one the client's table gives; with any other pair it throws,
    and in both cases the store is left as it was. *)
Theorem sign_in_after_setup kv clock email password :
  let kv' := (POST_setup clock kv).2 in
  (∃ userId user,
     DEMO_USERS !! email = Some (password, userId)
     ∧ authenticateUser email password kv' = (Normal (Some user), kv')
     ∧ own_property user "email" = Some (VStr email)
     ∧ own_property user "id" = Some (VStr userId))
  ∨ ((∀ userId, DEMO_USERS !! email ≠ Some (password, userId))
     ∧ authenticateUser email password kv' = (Thrown, kv')).
Proof.
  intros kv'. unfold authenticateUser.
  destruct (DEMO_USERS !! email) as [[password' userId]|] eqn:Hdemo;
    [|right; split; [intros userId Heq; discriminate|done]].
  cbn [fst]. destruct (String.eqb_spec password' password) as [<-|Hpassword]; cbn [negb].
  - left. exists userId.
    apply DEMO_USERS_cases in Hdemo as Hcases.
    destruct Hcases as [Hcase|[Hcase|Hcase]]; injection Hcase as -> -> ->;
      eexists; (split; [exact Hdemo|]);
      (split; [subst kv'; unfold POST_setup, request, GET_user; run_route;
               cbn [snd]; by simplify_map_eq|]);
      split; by simplify_map_eq.
  - right. split; [|done]. intros userId' Heq. congruence.
Qed.

(** X9.  Seeding the demo data again replaces the first seeding: serving
    [POST /setup] twice gives the response and the store of serving the
    second alone. *)
Theorem setup_again_replaces kv clock1 clock2 :
  POST_setup clock2 (POST_setup clock1 kv).2 = POST_setup clock2 kv.
Proof.
  unfold POST_setup. run_route. cbn [snd]. f_equal.
  apply map_eq. intros key.
  repeat match goal with
         | Hne : key ≠ ?k |- context [<[?k := _]> _ !! key] =>
             rewrite !(lookup_insert_ne _ k key) by done
         | |- context [<[?k := _]> _ !! key] =>
             destruct (decide (key = k)) as [->|?];
               [by rewrite !lookup_insert_eq|rewrite !(lookup_insert_ne _ k key) by done]
         end.
  done.
Qed.

(** *** An amount that is no number *)

Lemma float_mul_nan_l (x : float) : (nan * x)%float = nan.
Proof.
  apply Prim2SF_inj. rewrite mul_spec.
  change (Prim2SF nan) with S754_nan. by destruct (Prim2SF x).
Qed.

Lemma converted_nan (r : float) : (Number.Math_round (nan * r * 100) / 100)%float = nan.
Proof. rewrite float_mul_nan_l. by vm_compute. Qed.

(** X11.  An amount that does not parse is not rejected.  With [NaN] for
    the amount, the conversion route, when the rate lookup does not throw,
    answers 200 with [null] for both amounts, whatever the rate; and the
    form's [handleSubmit], for a currency the form offers, goes through: the
    expense is persisted as [pending] with [amount] and
    [amount_in_company_currency] both [null], and the form reports success
    when the signed-in user's id is one that a key can be formed from. *)
Theorem unparsable_amount_accepted
    kv (from to : string) user form receiptUrl
    now_id now_created now_step_id now_step_created :
  amount form = nan →
  currency form ∈ currencies →
  (∀ rate, rate_or_1 from to = Normal rate →
     (GET_convert from to nan kv).1.(code) = 200
     ∧ property (GET_convert from to nan kv).1.(body) "originalAmount" = Some VNull
     ∧ property (GET_convert from to nan kv).1.(body) "convertedAmount" = Some VNull)
  ∧ let result :=
      handleSubmit user form receiptUrl now_id now_created now_step_id now_step_created kv in
    let persisted := result.2 !! ("expense:" +:+ "expense-" +:+ pretty now_id) in
    (result.1 = true ↔ ∃ id, template (optional_id user) = Normal id)
    ∧ property persisted "status" = Some (VStr "pending")
    ∧ property persisted "amount" = Some VNull
    ∧ property persisted "amount_in_company_currency" = Some VNull.
Proof.
  intros Hamount Hcurrency. split.
  - intros rate Hrate. rewrite (GET_convert_run _ _ _ _ _ Hrate), converted_nan.
    cbn [fst code body property mbind option_bind own_property].
    split; [done|]. destruct (to_json rate); cbn [set_prop]; by simplify_map_eq.
  - destruct (currencies_rate _ Hcurrency) as [r Hrate].
    cbn zeta. rewrite (handleSubmit_run _ _ _ _ _ _ _ _ _ Hrate). cbn zeta. cbn [fst snd].
    rewrite POST_expenses_persists. cbn [property mbind option_bind].
    rewrite Hamount, converted_nan.
    split_and!.
    + destruct (template (optional_id user)) as [id|]; split; try done; [by exists id|].
      by intros [id Hid].
    + apply submitted_status.
    + rewrite submitted_property by done.
      rewrite lookup_fmap, lookup_insert_ne by done.
      destruct (optional_id user); cbn [set_prop];
        [rewrite lookup_insert_ne by done|rewrite lookup_delete_ne by done];
        by simplify_map_eq.
    + rewrite submitted_property by done. by rewrite lookup_fmap, lookup_insert_eq.
Qed.

(** *** The client's decision call *)

(** X12.  [apiClient.processApproval] sends [status] and, only when given,
    [comments].  On a step that is in the store the step is updated: its
    stored status is the one sent and its stored comment is the one given,
    or [null] when none or an empty one was given.  The call returns the
    updated step, as JSON, when a key can be formed from the step's
    [expense_id], and
    throws when none can (the 500 is not [ok]); on a step id that is not in
    the store it throws (nor is the 404) and the store is as before. *)
Theorem processApproval_outcomes kv approvalId (status : decision) comments now :
  (∀ approval,
     kv !! ("approval_step:" +:+ approvalId) = Some approval →
     truthy (Some approval) = true →
     ∃ updated,
       (processApproval approvalId status comments now kv).2
         !! ("approval_step:" +:+ approvalId) = Some updated
       ∧ own_property updated "status" = Some (VStr (decision_name status))
       ∧ own_property updated "comments"
         = Some (match comments with
                 | Some text => if String.eqb text "" then VNull else VStr text
                 | None => VNull
                 end)
       ∧ (processApproval approvalId status comments now kv).1
         = match template (own_property approval "expense_id") with
           | Normal _ => Normal (Some (json updated))
           | Thrown => Thrown
           end)
  ∧ (kv !! ("approval_step:" +:+ approvalId) = None →
     processApproval approvalId status comments now kv = (Thrown, kv)).
Proof.
  unfold processApproval, request. split.
  - intros approval Hstep Htruthy.
    pose proof (POST_approvals_step kv approvalId approval
      (set_prop "comments" (VStr <$> comments) {[ "status" := VStr (decision_name status) ]})
      now Hstep Htruthy) as Hstored.
    eexists. split_and!.
    + destruct (POST_approvals _ _ _ _) as [r kv'] eqn:Hrun. cbn [snd] in Hstored.
      destruct ((200 <=? code r) && (code r <=? 299)); exact Hstored.
    + rewrite decided_status. destruct comments; cbn [fmap option_fmap option_map set_prop];
        by simplify_map_eq.
    + rewrite decided_comments. f_equal.
      destruct comments as [text|]; cbn [fmap option_fmap option_map set_prop];
        simplify_map_eq; [|done].
      apply or_null_string.
    + rewrite (POST_approvals_found _ _ _ _ _ Hstep Htruthy). cbn zeta.
      by destruct (template _).
  - intros Hstep. rewrite POST_approvals_missing by (by rewrite Hstep). done.
Qed.

(** *** The dashboard's counters *)

Lemma count_status_le (status : string) (data : list value) (n : nat) :
  Dashboard.count_status status data = Normal n → (n ≤ length data)%nat.
Proof.
  revert n. induction data as [|e data IH]; intros n Hcount.
  - injection Hcount as <-. cbn. lia.
  - cbn [Dashboard.count_status] in Hcount.
    destruct (Dashboard.count_status status data) as [m|];
      [|by destruct e].
    specialize (IH m eq_refl). cbn [length].
    destruct e; try discriminate Hcount; injection Hcount as <-;
      cbn [own_property strict_eq_string]; try lia.
    destruct (strict_eq_string _ status); lia.
Qed.

Lemma count_status_total (status : string) (data : list value) :
  Forall (λ e, e ≠ VNull) data →
  ∃ n, Dashboard.count_status status data = Normal n.
Proof.
  intros Hdata. induction Hdata as [|e data He _ [n IH]]; [by exists 0%nat|].
  cbn [Dashboard.count_status]. rewrite IH.
  destruct e; [done|eexists; reflexivity..].
Qed.

Lemma count_status_throws (status : string) (data : list value) :
  VNull ∈ data → Dashboard.count_status status data = Thrown.
Proof.
  induction data as [|e data IH]; intros Hnull; [by apply elem_of_nil in Hnull|].
  apply elem_of_cons in Hnull as [<-|Hnull]; [done|].
  cbn [Dashboard.count_status]. rewrite (IH Hnull). by destruct e.
Qed.

(** The three counters count disjoint sets of elements. *)
Lemma count_status_disjoint (data : list value) (p a r : nat) :
  Dashboard.count_status "pending" data = Normal p →
  Dashboard.count_status "approved" data = Normal a →
  Dashboard.count_status "rejected" data = Normal r →
  (p + a + r ≤ length data)%nat.
Proof.
  revert p a r. induction data as [|e data IH]; intros p a r Hp Ha Hr.
  - injection Hp as <-. injection Ha as <-. injection Hr as <-. cbn. lia.
  - cbn [Dashboard.count_status] in Hp, Ha, Hr.
    destruct (Dashboard.count_status "pending" data) as [p'|]; [|by destruct e].
    destruct (Dashboard.count_status "approved" data) as [a'|]; [|by destruct e].
    destruct (Dashboard.count_status "rejected" data) as [r'|]; [|by destruct e].
    specialize (IH p' a' r' eq_refl eq_refl eq_refl). cbn [length].
    destruct e as [| | | |?|fields]; try discriminate Hp;
      injection Hp as <-; injection Ha as <-; injection Hr as <-;
      cbn [own_property strict_eq_string]; try lia.
    destruct (fields !! "status") as [[| | |s| |]|]; cbn [strict_eq_string]; try lia.
    destruct (String.eqb_spec s "pending") as [->|]; [cbn; lia|].
    destruct (String.eqb_spec s "approved") as [->|]; [cbn; lia|].
    destruct (String.eqb s "rejected"); lia.
Qed.

(** X13.  The dashboard's counters, for an answer that is an array without
    [null] elements: [total] is its length and [pending], [approved] and
    [rejected] count disjoint elements, so their sum is at most [total].  An
    array with a [null] element makes the computation throw, and so does an
    answer that is neither an array nor [null]. *)
Theorem dashboard_counters (data : list value) :
  (Forall (λ e, e ≠ VNull) data →
   ∃ st, Dashboard.fetchExpenses_stats (Some (VArr data)) = Normal st
         ∧ Dashboard.total st = length data
         ∧ (Dashboard.pending st + Dashboard.approved st + Dashboard.rejected st
            ≤ Dashboard.total st)%nat)
  ∧ (VNull ∈ data → Dashboard.fetchExpenses_stats (Some (VArr data)) = Thrown)
  ∧ (∀ fields, Dashboard.fetchExpenses_stats (Some (VObj fields)) = Thrown)
  ∧ Dashboard.fetchExpenses_stats None = Normal (Dashboard.Stats 0 0 0 0).
Proof.
  split_and!; [| |done|done].
  - intros Hdata. unfold Dashboard.fetchExpenses_stats.
    destruct (count_status_total "pending" data Hdata) as [p Hp].
    destruct (count_status_total "approved" data Hdata) as [a Ha].
    destruct (count_status_total "rejected" data Hdata) as [r Hr].
    rewrite Hp, Ha, Hr. eexists. split_and!; [done..|]. cbn.
    by apply count_status_disjoint.
  - intros Hnull. unfold Dashboard.fetchExpenses_stats.
    by rewrite (count_status_throws _ _ Hnull).
Qed.

(** *** Pending approvals *)

Lemma prefix_append (p s : string) : String.prefix p (p +:+ s) = true.
Proof.
  induction p as [|c p IH]; [by destruct s|].
  change (String c p +:+ s) with (String c (p +:+ s)). cbn [String.prefix].
  destruct (Ascii.ascii_dec c c); [exact IH|done].
Qed.

Lemma prefix_inv (p k : string) :
  String.prefix p k = true → ∃ s, k = p +:+ s.
Proof.
  revert k. induction p as [|c p IH]; intros k Hprefix; [by exists k|].
  destruct k as [|c' k]; [done|]. cbn [String.prefix] in Hprefix.
  destruct (Ascii.ascii_dec c c') as [<-|]; [|done].
  destruct (IH _ Hprefix) as [s ->]. by exists s.
Qed.

Lemma approval_steps_elem_of kv (v : value) :
  v ∈ approval_steps kv ↔ ∃ id, kv !! ("approval_step:" +:+ id) = Some v.
Proof.
  unfold approval_steps. rewrite list_elem_of_fmap. split.
  - intros ([k v'] & -> & Hentry). apply list_elem_of_filter in Hentry as [Hprefix Hentry].
    apply elem_of_map_to_list in Hentry. cbn [fst snd] in *.
    destruct (prefix_inv _ _ Hprefix) as [id ->]. by exists id.
  - intros [id Hlookup]. exists ("approval_step:" +:+ id, v). split; [done|].
    apply list_elem_of_filter. split; [apply prefix_append|].
    by apply elem_of_map_to_list.
Qed.

Lemma is_pending_for_run userId step kv :
  is_pending_for userId step kv =
    match step with
    | VNull => (Thrown, kv)
    | _ => (Normal (pending_for userId step), kv)
    end.
Proof.
  unfold is_pending_for, pending_for.
  destruct step; [done|..]; rewrite !member_not_null by done; run_route;
    by destruct (strict_eq_string _ userId).
Qed.

Lemma existsb_is_null (steps : list value) :
  existsb is_null steps = true ↔ VNull ∈ steps.
Proof.
  induction steps as [|step steps IH]; cbn [existsb].
  - split; [done|by intros ?%elem_of_nil].
  - rewrite orb_true_iff, IH, elem_of_cons. split.
    + intros [Hnull|Hin]; [left; by destruct step|by right].
    + intros [<-|Hin]; [by left|by right].
Qed.

Lemma existsb_is_null_false (steps : list value) :
  existsb is_null steps = false ↔ VNull ∉ steps.
Proof.
  rewrite <- existsb_is_null. by destruct (existsb is_null steps).
Qed.

(** The filter of the route: it throws on a [null] step and reads nothing
    but the steps. *)
Lemma filter_pending_run userId (steps : list value) kv :
  filterH (is_pending_for userId) steps kv =
    (if existsb is_null steps then Thrown
     else Normal (filter (λ step, pending_for userId step = true) steps), kv).
Proof.
  induction steps as [|step steps IH]; [done|].
  cbn [filterH existsb]. run_route. rewrite is_pending_for_run.
  destruct (is_null step) eqn:Hstep; [by destruct step|]. cbn [orb].
  assert (Hrun : (match step with
                  | VNull => (Thrown, kv)
                  | _ => (Normal (pending_for userId step), kv)
                  end) = (Normal (pending_for userId step), kv)) by (by destruct step).
  rewrite Hrun, IH. clear Hrun.
  destruct (existsb is_null steps); [done|].
  rewrite filter_cons. by destruct (pending_for userId step).
Qed.

Lemma with_expense_run approval kv :
  approval ≠ VNull → with_expense approval kv = (entry_of kv approval, kv).
Proof.
  intros Happroval. unfold with_expense, entry_of. rewrite member_not_null by done.
  run_route. destruct (template (own_property approval "expense_id")) as [expense_id|];
    [|done].
  by destruct (template (optional_property _ "employee_id")).
Qed.

(** The callbacks of the route only read the store. *)
Lemma map_with_expense_run (steps : list value) kv :
  VNull ∉ steps → mapH with_expense steps kv = (map_all (entry_of kv) steps, kv).
Proof.
  induction steps as [|step steps IH]; intros Hnull; [done|].
  cbn [mapH map_all]. run_route.
  rewrite with_expense_run by (intros ->; apply Hnull; by left).
  destruct (entry_of kv step) as [e|]; [|done].
  rewrite IH by (intros Hin; apply Hnull; by right).
  by destruct (map_all (entry_of kv) steps).
Qed.

Lemma map_all_Normal {A B} (f : A → completion B) (l : list A) (ys : list B) :
  map_all f l = Normal ys → Forall2 (λ x y, f x = Normal y) l ys.
Proof.
  revert ys. induction l as [|x l IH]; intros ys Hmap.
  - injection Hmap as <-. constructor.
  - cbn [map_all] in Hmap. destruct (f x) as [y|] eqn:Hx; [|done].
    destruct (map_all f l) as [ys'|]; [|done]. injection Hmap as <-.
    constructor; [done|by apply IH].
Qed.

Lemma map_all_total {A B} (f : A → completion B) (l : list A) :
  (∀ x, x ∈ l → ∃ y, f x = Normal y) → ∃ ys, map_all f l = Normal ys.
Proof.
  induction l as [|x l IH]; intros Hf; [by eexists|].
  destruct (Hf x) as [y Hy]; [by left|].
  destruct IH as [ys Hys]; [intros z Hz; apply Hf; by right|].
  exists (y :: ys). cbn [map_all]. by rewrite Hy, Hys.
Qed.

Lemma map_all_Thrown {A B} (f : A → completion B) (l : list A) (x : A) :
  x ∈ l → f x = Thrown → map_all f l = Thrown.
Proof.
  induction l as [|z l IH]; intros Hin Hx; [by apply elem_of_nil in Hin|].
  cbn [map_all]. apply elem_of_cons in Hin as [<-|Hin]; [by rewrite Hx|].
  rewrite (IH Hin Hx). by destruct (f z).
Qed.

(** The route as a function of the store. *)
Lemma GET_approvals_run kv userId :
  GET_approvals userId kv =
    (match
       (if existsb is_null (approval_steps kv) then Thrown
        else map_all (entry_of kv)
               (filter (λ step, pending_for userId step = true) (approval_steps kv)))
     with
     | Normal entries => Response 200 (Some (VArr (json <$> entries)))
     | Thrown => Response 500 (Some (VObj {[ "error" := VStr "Failed to fetch approvals" ]}))
     end, kv).
Proof.
  unfold GET_approvals. run_route. unfold kv.getByPrefix. cbn beta iota.
  fold (approval_steps kv).
  pose proof (filter_pending_run userId (approval_steps kv) kv) as Hfilter.
  unfold mbind, Handler_bind, mret, Handler_ret in Hfilter |- *. rewrite Hfilter.
  destruct (existsb is_null (approval_steps kv)) eqn:Hnull; [done|].
  apply existsb_is_null_false in Hnull.
  pose proof (map_with_expense_run
    (filter (λ step, pending_for userId step = true) (approval_steps kv)) kv) as Hmap.
  unfold mbind, Handler_bind, mret, Handler_ret in Hmap. rewrite Hmap.
  - by destruct (map_all _ _).
  - intros Hin. apply list_elem_of_filter in Hin as [_ Hin]. done.
Qed.

(** A step that passes the test is an object with status [pending]. *)
Lemma pending_for_object userId step :
  pending_for userId step = true →
  is_object step ∧ own_property step "status" = Some (VStr "pending").
Proof.
  unfold pending_for. intros [Happrover Hstatus]%andb_prop.
  destruct step as [| | | | |fields]; try discriminate Happrover.
  split; [by eexists|]. cbn [own_property] in *.
  destruct (fields !! "status") as [[| | |s| |]|]; try discriminate Hstatus.
  cbn [strict_eq_string] in Hstatus. by apply String.eqb_eq in Hstatus as ->.
Qed.

Lemma entry_property (step : gmap string value) expense employee name :
  name ≠ "expense" →
  own_property (entry (VObj step) expense employee) name = step !! name.
Proof. intros Hname. unfold entry. cbn [own_property spread]. by rewrite lookup_insert_ne. Qed.

Lemma entry_of_property kv (step : gmap string value) e name :
  entry_of kv (VObj step) = Normal e → name ≠ "expense" →
  own_property e name = step !! name.
Proof.
  unfold entry_of. intros Hentry Hname.
  destruct (template _) as [expense_id|]; [|done]. cbn in Hentry.
  destruct (template _) as [employee_id|]; [|done]. injection Hentry as <-.
  by apply entry_property.
Qed.

(** JSON keeps the shape of a value: an object stays an object with the
    same property names. *)
Lemma own_property_json (v : value) (name : string) :
  own_property (json v) name = json <$> own_property v name.
Proof.
  destruct v as [| |x| | |fields]; try done.
  - cbn [json]. unfold json_number.
    by destruct (PrimFloat.is_nan x || PrimFloat.is_infinity x), (PrimFloat.is_zero x).
  - cbn [json own_property]. apply lookup_fmap.
Qed.

Lemma property_json (v : jsval) (name : string) :
  property (json <$> v) name = json <$> property v name.
Proof. destruct v as [v|]; [apply own_property_json|done]. Qed.

(** What the route answers when it answers a list: the JSON of the
    entries of the pending steps. *)
Lemma GET_approvals_entries kv userId answer :
  GET_approvals userId kv = (Response 200 (Some (VArr answer)), kv) →
  ∃ entries,
    answer = json <$> entries
    ∧ ∀ e, e ∈ entries ↔
           ∃ id step, kv !! ("approval_step:" +:+ id) = Some step
                      ∧ pending_for userId step = true
                      ∧ entry_of kv step = Normal e.
Proof.
  rewrite GET_approvals_run. intros Hrun.
  destruct (existsb is_null (approval_steps kv)); [done|].
  destruct (map_all _ _) as [entries'|] eqn:Hmap; [|done].
  injection Hrun as <-. exists entries'. split; [done|]. intros e.
  apply map_all_Normal in Hmap. split.
  - intros Hin. apply list_elem_of_lookup in Hin as [i Hi].
    destruct (Forall2_lookup_r _ _ _ i e Hmap Hi) as (step & Hstep & Hentry).
    apply list_elem_of_lookup_2, list_elem_of_filter in Hstep as [Hpending Hstep].
    apply approval_steps_elem_of in Hstep as [id Hlookup]. by exists id, step.
  - intros (id & step & Hlookup & Hpending & Hentry).
    assert (Hin : step ∈ filter (λ step, pending_for userId step = true) (approval_steps kv)).
    { apply list_elem_of_filter. split; [done|]. apply approval_steps_elem_of. by exists id. }
    apply list_elem_of_lookup in Hin as [i Hi].
    destruct (Forall2_lookup_l _ _ _ i step Hmap Hi) as (e' & He' & Hentry').
    rewrite Hentry in Hentry'. injection Hentry' as <-.
    by apply list_elem_of_lookup_2 in He'.
Qed.

(** When the route answers a list. *)
Lemma GET_approvals_answers kv userId :
  (∀ id, kv !! ("approval_step:" +:+ id) ≠ Some VNull) →
  (∀ id step, kv !! ("approval_step:" +:+ id) = Some step →
     pending_for userId step = true → ∃ e, entry_of kv step = Normal e) →
  ∃ entries,
    GET_approvals userId kv = (Response 200 (Some (VArr (json <$> entries))), kv).
Proof.
  intros Hnull Hentries. rewrite GET_approvals_run.
  replace (existsb is_null (approval_steps kv)) with false.
  2:{ symmetry. apply existsb_is_null_false.
      intros [id Hid]%approval_steps_elem_of. by eapply Hnull. }
  destruct (map_all_total (entry_of kv)
    (filter (λ step, pending_for userId step = true) (approval_steps kv))) as [entries ->].
  - intros step [Hpending [id Hid]%approval_steps_elem_of]%list_elem_of_filter.
    by eapply Hentries.
  - by exists entries.
Qed.

Lemma GET_approvals_fails kv userId :
  ((∃ id, kv !! ("approval_step:" +:+ id) = Some VNull)
   ∨ ∃ id step, kv !! ("approval_step:" +:+ id) = Some step
                ∧ pending_for userId step = true ∧ entry_of kv step = Thrown) →
  GET_approvals userId kv
  = (Response 500 (Some (VObj {[ "error" := VStr "Failed to fetch approvals" ]})), kv).
Proof.
  intros Hfail. rewrite GET_approvals_run.
  destruct (existsb is_null (approval_steps kv)) eqn:Hnull; [done|].
  apply existsb_is_null_false in Hnull.
  destruct Hfail as [[id Hid]|(id & step & Hid & Hpending & Hentry)].
  - exfalso. apply Hnull, approval_steps_elem_of. by exists id.
  - rewrite (map_all_Thrown _ _ step); [done| |done].
    apply list_elem_of_filter. split; [done|]. apply approval_steps_elem_of. by exists id.
Qed.




(** *** The queue of an approver *)

Lemma employees_printable_insert_expense kv id v employee_id :
  employees_printable kv →
  template (own_property v "employee_id") = Normal employee_id →
  employees_printable (<["expense:" +:+ id := v]> kv).
Proof.
  intros Hkv Hv id' v' Hlookup.
  apply lookup_insert_Some in Hlookup as [[_ <-]|[_ Hlookup]];
    [by exists employee_id | by eapply Hkv].
Qed.

Lemma employees_printable_insert_other kv key v :
  (∀ id, key ≠ "expense:" +:+ id) →
  employees_printable kv → employees_printable (<[key := v]> kv).
Proof.
  intros Hkey Hkv id' v' Hlookup. rewrite lookup_insert_ne in Hlookup by done.
  by eapply Hkv.
Qed.

(** The property can be checked by running through the store. *)
Lemma employees_printable_check kv :
  forallb
    (λ e : string * value,
       implb (String.prefix "expense:" e.1)
         match template (own_property e.2 "employee_id") with
         | Normal _ => true
         | Thrown => false
         end)
    (map_to_list kv) = true →
  employees_printable kv.
Proof.
  intros Hcheck id v Hlookup.
  apply elem_of_map_to_list, list_elem_of_In in Hlookup.
  apply (proj1 (forallb_forall _ _) Hcheck) in Hlookup. cbn [fst snd] in Hlookup.
  rewrite prefix_append in Hlookup. cbn [implb] in Hlookup.
  destruct (template _) as [employee_id|]; [by exists employee_id|done].
Qed.

Lemma POST_approvals_printable kv approvalId reqBody now :
  consistent kv → employees_printable kv →
  employees_printable (POST_approvals approvalId (VObj reqBody) now kv).2.
Proof.
  intros Hkv Hprintable.
  destruct (kv !! ("approval_step:" +:+ approvalId)) as [approval|] eqn:Hstep;
    [|by rewrite POST_approvals_missing by (by rewrite Hstep)].
  destruct (proj2 Hkv _ _ Hstep) as ([step ->] & expense_id & Hid & [expense Hexpense]).
  rewrite (POST_approvals_found _ _ _ _ _ Hstep eq_refl). cbn zeta.
  rewrite Hid. cbn [snd]. rewrite Hexpense.
  destruct (proj1 Hkv _ _ Hexpense) as [fields ->]. cbn [truthy].
  destruct (Hprintable _ _ Hexpense) as [employee_id Hemployee].
  apply (employees_printable_insert_expense _ _ _ employee_id).
  - apply employees_printable_insert_other; [intros; apply step_key_not_expense_key|done].
  - unfold with_status. cbn [own_property spread] in *.
    destruct (reqBody !! "status"); cbn [set_prop];
      [by rewrite lookup_insert_ne | by rewrite lookup_delete_ne].
Qed.

(** On a store that is consistent and whose expenses name printable
    employees, every approver's queue can be listed. *)
Lemma consistent_listable kv userId :
  consistent kv → employees_printable kv →
  ∃ entries,
    GET_approvals userId kv = (Response 200 (Some (VArr (json <$> entries))), kv).
Proof.
  intros Hkv Hprintable. apply GET_approvals_answers.
  - intros id Hnull. by destruct (proj2 Hkv _ _ Hnull) as [[fields ?] _].
  - intros id step Hstep _.
    destruct (proj2 Hkv _ _ Hstep) as (_ & expense_id & Hid & [expense Hexpense]).
    destruct (proj1 Hkv _ _ Hexpense) as [fields ->].
    destruct (Hprintable _ _ Hexpense) as [employee_id Hemployee].
    unfold entry_of. rewrite Hid. cbn. rewrite Hexpense. cbn [optional_property].
    rewrite Hemployee. by eexists.
Qed.

(** X15.  A decided step leaves the queue.  After a decision with an
    outcome on a step that is in the store, whenever
    [GET /approvals/:userId] answers a list, for whatever user, every entry
    of the list has status [pending] and none is the JSON of the entry of the
    decided step.  It does answer a list on a store where every expense and
    step is an object, every step names a stored expense and every expense a
    printable employee. *)
Theorem decided_step_unlisted
    kv approvalId (step : gmap string value) reqBody (outcome : decision) now userId :
  kv !! ("approval_step:" +:+ approvalId) = Some (VObj step) →
  reqBody !! "status" = Some (VStr (decision_name outcome)) →
  let kv' := (POST_approvals approvalId (VObj reqBody) now kv).2 in
  kv' !! ("approval_step:" +:+ approvalId) = Some (decided (VObj step) reqBody now)
  ∧ (∀ answer,
       GET_approvals userId kv' = (Response 200 (Some (VArr answer)), kv') →
       (∀ entry, entry ∈ answer → own_property entry "status" = Some (VStr "pending"))
       ∧ ∀ e, entry_of kv' (decided (VObj step) reqBody now) = Normal e →
              json e ∉ answer)
  ∧ (consistent kv → employees_printable kv →
     ∃ answer, GET_approvals userId kv' = (Response 200 (Some (VArr answer)), kv')).
Proof.
  intros Hstep Hstatus kv'. split_and!.
  - by apply POST_approvals_step.
  - intros answer Hrun.
    destruct (GET_approvals_entries _ _ _ Hrun) as (entries & -> & Hentries).
    assert (Hpending : ∀ entry, entry ∈ json <$> entries →
              own_property entry "status" = Some (VStr "pending")).
    { intros entry Hin. apply list_elem_of_fmap in Hin as (raw & -> & Hin).
      apply Hentries in Hin as (id & step' & Hlookup & Hpending & Hentry).
      destruct (pending_for_object _ _ Hpending) as [[fields ->] Hfield].
      rewrite own_property_json, (entry_of_property _ _ _ _ Hentry) by done.
      cbn [own_property] in Hfield. by rewrite Hfield. }
    split; [done|]. intros e Hentry Hin. apply Hpending in Hin.
    rewrite own_property_json in Hin.
    unfold decided in Hentry. rewrite (entry_of_property _ _ _ _ Hentry) in Hin by done.
    rewrite Hstatus in Hin. cbn [set_prop] in Hin. simplify_map_eq.
    by destruct outcome.
  - intros Hkv Hprintable.
    destruct (consistent_listable kv' userId) as [entries Hrun].
    + by apply POST_approvals_consistent.
    + by apply POST_approvals_printable.
    + by exists (json <$> entries).
Qed.

(** X16.  A submitted expense reaches its approver's queue.  After
    [POST /expenses] for an employee whose stored record names a manager, on
    a store where every expense and step is an object, every step names a
    stored expense and every expense a printable employee, the manager's
    pending approvals hold an entry for the new step: it is [pending], it
    names the new expense, and it carries that expense, [pending], with the
    JSON of the employee's record attached. *)
Theorem submitted_step_listed
    kv expenseData employee_id user manager now_id now_created now_step_id
    now_step_created :
  consistent kv →
  employees_printable kv →
  template (expenseData !! "employee_id") = Normal employee_id →
  kv !! ("user:" +:+ employee_id) = Some user →
  own_property user "manager_id" = Some (VStr manager) →
  truthy (Some (VStr manager)) = true →
  let kv' :=
    (POST_expenses (VObj expenseData) now_id now_created now_step_id now_step_created kv).2 in
  ∃ answer entry,
    GET_approvals manager kv' = (Response 200 (Some (VArr answer)), kv')
    ∧ entry ∈ answer
    ∧ own_property entry "id" = Some (VStr ("approval-" +:+ pretty now_step_id))
    ∧ own_property entry "expense_id" = Some (VStr ("expense-" +:+ pretty now_id))
    ∧ own_property entry "status" = Some (VStr "pending")
    ∧ property (own_property entry "expense") "status" = Some (VStr "pending")
    ∧ property (own_property entry "expense") "employee" = Some (json user).
Proof.
  intros Hkv Hprintable Hid Huser Hmanager Htruthy kv'.
  assert (Hkv' : consistent kv') by apply POST_expenses_consistent, Hkv.
  assert (Hstore : kv' =
    <["approval_step:" +:+ "approval-" +:+ pretty now_step_id :=
        first_step (VStr manager) now_id now_step_id now_step_created]>
      (<["expense:" +:+ "expense-" +:+ pretty now_id :=
          submitted expenseData now_id now_created]> kv)).
  { subst kv'. rewrite POST_expenses_object. cbn zeta. rewrite Hid, Huser.
    cbn [property mbind option_bind snd]. by rewrite Hmanager, Htruthy. }
  assert (Hemployee_id :
    own_property (submitted expenseData now_id now_created) "employee_id"
    = expenseData !! "employee_id") by (by apply submitted_property).
  assert (Hprintable' : employees_printable kv').
  { rewrite Hstore.
    apply employees_printable_insert_other; [intros; apply step_key_not_expense_key|].
    apply (employees_printable_insert_expense _ _ _ employee_id); [done|].
    by rewrite Hemployee_id. }
  destruct (consistent_listable kv' manager Hkv' Hprintable') as [entries Hrun].
  destruct (GET_approvals_entries _ _ _ Hrun) as (entries' & Heq & Hentries).
  set (step := first_step (VStr manager) now_id now_step_id now_step_created) in *.
  assert (Hexpense : kv' !! ("expense:" +:+ "expense-" +:+ pretty now_id)
                     = Some (submitted expenseData now_id now_created)).
  { rewrite Hstore, lookup_insert_ne by apply step_key_not_expense_key.
    by rewrite lookup_insert_eq. }
  assert (Hemployee : kv' !! ("user:" +:+ employee_id) = Some user).
  { rewrite Hstore, lookup_insert_ne by apply not_eq_sym, user_key_not_step_key.
    by rewrite lookup_insert_ne by apply expense_key_not_user_key. }
  assert (Hentry : entry_of kv' step
    = Normal (entry step (Some (submitted expenseData now_id now_created)) (Some user))).
  { unfold entry_of, step. rewrite first_step_expense_id, template_string.
    unfold mbind, completion_bind. cbn beta iota zeta. rewrite Hexpense.
    change (optional_property (Some (submitted expenseData now_id now_created)) "employee_id")
      with (own_property (submitted expenseData now_id now_created) "employee_id").
    by rewrite Hemployee_id, Hid, Hemployee. }
  assert (Hcarried_status :
    property (own_property
                (entry step (Some (submitted expenseData now_id now_created)) (Some user))
                "expense") "status" = Some (VStr "pending")).
  { unfold entry. cbn [own_property]. rewrite lookup_insert_eq.
    cbn [property mbind option_bind own_property set_prop spread].
    rewrite lookup_insert_ne by done. apply submitted_status. }
  assert (Hcarried_employee :
    property (own_property
                (entry step (Some (submitted expenseData now_id now_created)) (Some user))
                "expense") "employee" = Some user).
  { unfold entry. cbn [own_property]. rewrite lookup_insert_eq.
    cbn [property mbind option_bind own_property set_prop spread].
    by rewrite lookup_insert_eq. }
  exists (json <$> entries),
    (json (entry step (Some (submitted expenseData now_id now_created)) (Some user))).
  rewrite !own_property_json, !property_json, Hcarried_status, Hcarried_employee.
  split_and!.
  - done.
  - rewrite Heq. apply list_elem_of_fmap_2, Hentries.
    exists ("approval-" +:+ pretty now_step_id), step.
    split_and!; [by rewrite Hstore, lookup_insert_eq| |done].
    unfold pending_for, step, first_step. cbn [own_property].
    rewrite lookup_insert_eq. cbn [strict_eq_string]. rewrite String.eqb_refl.
    by simplify_map_eq.
  - unfold step, first_step. rewrite entry_property by done. by simplify_map_eq.
  - unfold step at 1, first_step. rewrite entry_property by done. by simplify_map_eq.
  - unfold step, first_step. rewrite entry_property by done. by simplify_map_eq.
  - done.
  - done.
Qed.

(** *** Deleting a user does not reach the workflow *)

(** X17.  Deleting a manager leaves the employees who name that manager as
    they are: after [DELETE /users/:userId] has removed the manager's record,
    a submission by such an employee still creates a pending step whose
    [approver_id] is the deleted manager. *)
Theorem deleted_manager_still_assigned
    kv manager record expenseData employee_id user now_id now_created now_step_id
    now_step_created :
  kv !! ("user:" +:+ manager) = Some record →
  truthy (Some record) = true →
  template (expenseData !! "employee_id") = Normal employee_id →
  kv !! ("user:" +:+ employee_id) = Some user →
  own_property user "manager_id" = Some (VStr manager) →
  truthy (Some (VStr manager)) = true →
  employee_id ≠ manager →
  (∀ email, template (own_property record "email") = Normal email →
            employee_id ≠ "email:" +:+ email) →
  let kv1 := (DELETE_users manager kv).2 in
  let result :=
    POST_expenses (VObj expenseData) now_id now_created now_step_id now_step_created kv1 in
  kv1 !! ("user:" +:+ manager) = None
  ∧ result.1.(code) = 200
  ∧ result.2 !! ("approval_step:" +:+ "approval-" +:+ pretty now_step_id)
    = Some (first_step (VStr manager) now_id now_step_id now_step_created)
  ∧ own_property (first_step (VStr manager) now_id now_step_id now_step_created)
      "approver_id"
    = Some (VStr manager).
Proof.
  intros Hrecord Hrecord_truthy Hid Huser Hmanager Htruthy Hne Hne_email kv1 result.
  assert (Hgone : kv1 !! ("user:" +:+ manager) = None).
  { subst kv1. rewrite (DELETE_users_found _ _ _ Hrecord Hrecord_truthy).
    destruct (template (own_property record "email")) as [email|]; cbn [snd];
      [|apply lookup_delete_eq].
    apply lookup_delete_None. right. apply lookup_delete_eq. }
  assert (Huser1 : kv1 !! ("user:" +:+ employee_id) = Some user).
  { subst kv1. rewrite (DELETE_users_found _ _ _ Hrecord Hrecord_truthy).
    destruct (template (own_property record "email")) as [email|] eqn:Hemail; cbn [snd].
    - specialize (Hne_email _ eq_refl).
      rewrite lookup_delete_ne by (intros Heq; by simplify_eq/=).
      by rewrite lookup_delete_ne by (intros Heq; by simplify_eq/=).
    - by rewrite lookup_delete_ne by (intros Heq; by simplify_eq/=). }
  split_and!; [done| | |].
  - subst result. rewrite POST_expenses_object. cbn zeta. by rewrite Hid.
  - subst result. rewrite POST_expenses_object. cbn zeta. rewrite Hid, Huser1.
    cbn [property mbind option_bind snd]. rewrite Hmanager, Htruthy.
    by rewrite lookup_insert_eq.
  - unfold first_step. cbn [own_property]. by rewrite lookup_insert_eq.
Qed.

(** *** Keys that cannot be formed *)



End Server.

(** * The theorems at work on the sample data *)

Lemma decide_updates_step_and_expense_witness :
  let reqBody := sample_decision "approved" "within policy" in
  let result :=
    POST_approvals sample_Number_toString sample_toISOString
      "approval-1" (VObj reqBody) 1705400000000 sample_store in
  sample_store !! "approval_step:approval-1" = Some (VObj sample_step_fields)
  ∧ reqBody !! "status" = Some (VStr (decision_name approved))
  ∧ template sample_Number_toString (sample_step_fields !! "expense_id")
    = Normal "expense-002"
  ∧ sample_store !! "expense:expense-002" = Some sample_expense
  ∧ result.1.(code) = 200
  ∧ property (result.2 !! "approval_step:approval-1") "status" = Some (VStr "approved")
  ∧ property (result.2 !! "approval_step:approval-1") "comments"
    = Some (VStr "within policy")
  ∧ property (result.2 !! "approval_step:approval-1") "decided_at"
    = Some (VStr "1705400000000ms")
  ∧ property (result.2 !! "expense:expense-002") "status" = Some (VStr "approved").
Proof.
  cbv zeta.
  destruct (decide_updates_step_and_expense sample_Number_toString sample_toISOString
    sample_store "approval-1" (VObj sample_step_fields) "expense-002" sample_expense
    (sample_decision "approved" "within policy") approved 1705400000000)
    as (Hrun & _); [vm_compute; reflexivity..|].
  rewrite Hrun. clear Hrun. vm_compute. split_and!; reflexivity.
Defined.

Lemma decide_unknown_step_not_found_witness :
  sample_store !! "approval_step:approval-404" = None
  ∧ POST_approvals sample_Number_toString sample_toISOString
      "approval-404" (VObj (sample_decision "approved" "")) 1705400000000 sample_store
    = (Response 404 (Some (VObj {[ "error" := VStr "Approval not found" ]})), sample_store).
Proof.
  split; [vm_compute; reflexivity|].
  apply (decide_unknown_step_not_found sample_Number_toString sample_toISOString).
  vm_compute; reflexivity.
Defined.

Lemma decide_again_overwrites_witness :
  let first :=
    POST_approvals sample_Number_toString sample_toISOString "approval-1"
      (VObj (sample_decision "approved" "within policy")) 1705400000000 sample_store in
  let second :=
    POST_approvals sample_Number_toString sample_toISOString "approval-1"
      (VObj (sample_decision "rejected" "duplicate")) 1705500000000 first.2 in
  sample_store !! "approval_step:approval-1" = Some (VObj sample_step_fields)
  ∧ property (first.2 !! "approval_step:approval-1") "status" = Some (VStr "approved")
  ∧ second.1.(code) = 200
  ∧ property (second.2 !! "approval_step:approval-1") "status" = Some (VStr "rejected")
  ∧ property (second.2 !! "approval_step:approval-1") "comments" = Some (VStr "duplicate")
  ∧ property (second.2 !! "approval_step:approval-1") "decided_at"
    = Some (VStr "1705500000000ms")
  ∧ property (second.2 !! "expense:expense-002") "status" = Some (VStr "rejected").
Proof.
  cbv zeta.
  destruct (decide_again_overwrites sample_Number_toString sample_toISOString
    sample_store "approval-1" sample_step_fields
    (sample_decision "approved" "within policy") (sample_decision "rejected" "duplicate")
    approved rejected 1705400000000 1705500000000)
    as (Hfirst & Hsecond & _); [vm_compute; reflexivity..|].
  split; [vm_compute; reflexivity|]. split; [exact Hfirst|].
  rewrite Hsecond. clear Hfirst Hsecond. vm_compute. split_and!; reflexivity.
Defined.

Lemma decide_without_expense_witness :
  let kv := delete "expense:expense-002" sample_store in
  let result :=
    POST_approvals sample_Number_toString sample_toISOString "approval-1"
      (VObj (sample_decision "approved" "within policy")) 1705400000000 kv in
  kv !! "approval_step:approval-1" = Some (VObj sample_step_fields)
  ∧ template sample_Number_toString (sample_step_fields !! "expense_id")
    = Normal "expense-002"
  ∧ kv !! "expense:expense-002" = None
  ∧ result.1.(code) = 200
  ∧ property (result.2 !! "approval_step:approval-1") "status" = Some (VStr "approved")
  ∧ property (result.2 !! "approval_step:approval-1") "comments"
    = Some (VStr "within policy")
  ∧ property (result.2 !! "approval_step:approval-1") "decided_at"
    = Some (VStr "1705400000000ms")
  ∧ property (result.2 !! "approval_step:approval-1") "approver_id"
    = Some (VStr "manager-001")
  ∧ result.2 !! "expense:expense-002" = None.
Proof.
  cbv zeta.
  destruct (decide_without_expense sample_Number_toString sample_toISOString
    (delete "expense:expense-002" sample_store) "approval-1"
    (VObj sample_step_fields) "expense-002"
    (sample_decision "approved" "within policy") 1705400000000)
    as (Hrun & _ & Hstatus & Hcomments & _ & Hdecided & Hother & Hexpense & _);
    [vm_compute; reflexivity..|].
  split_and!; [vm_compute; reflexivity..| | | | | |exact Hexpense].
  - by rewrite Hrun.
  - exact Hstatus.
  - exact (Hcomments "within policy" eq_refl).
  - exact Hdecided.
  - exact (Hother "approver_id" ltac:(discriminate) ltac:(discriminate) ltac:(discriminate)).
Defined.

Lemma submit_with_manager_witness :
  let result :=
    POST_expenses sample_Number_toString sample_toISOString (VObj sample_expenseData)
      1705363200000 1705363200000 1705363200001 1705363200001 sample_store in
  template sample_Number_toString (sample_expenseData !! "employee_id")
    = Normal "employee-001"
  ∧ sample_store !! "user:employee-001" = Some sample_employee
  ∧ own_property sample_employee "manager_id" = Some (VStr "manager-001")
  ∧ result.1.(code) = 200
  ∧ property (result.2 !! "expense:expense-1705363200000") "status" = Some (VStr "pending")
  ∧ result.2 !! "approval_step:approval-1705363200001" = Some (VObj (list_to_map
      [ ("id", VStr "approval-1705363200001");
        ("expense_id", VStr "expense-1705363200000");
        ("approver_id", VStr "manager-001");
        ("status", VStr "pending");
        ("sequence", VNum 1%float);
        ("created_at", VStr "1705363200001ms") ])).
Proof.
  cbv zeta.
  destruct (submit_with_manager sample_Number_toString sample_toISOString
    sample_store sample_expenseData "employee-001" sample_employee
    (VStr "manager-001") 1705363200000 1705363200000 1705363200001 1705363200001)
    as (Hrun & _); [vm_compute; reflexivity..|].
  rewrite Hrun. clear Hrun. vm_compute. split_and!; reflexivity.
Defined.


Lemma delete_user_removes_both_records_witness :
  let result := DELETE_users sample_Number_toString "employee-001" sample_store in
  sample_store !! "user:employee-001" = Some sample_employee
  ∧ template sample_Number_toString (own_property sample_employee "email")
    = Normal "employee@company.com"
  ∧ is_Some (sample_store !! "user:email:employee@company.com")
  ∧ result.1.(code) = 200
  ∧ result.2 !! "user:employee-001" = None
  ∧ result.2 !! "user:email:employee@company.com" = None
  ∧ (GET_user sample_Number_toString "employee@company.com" result.2).1.(code) = 404
  ∧ sample_store !! "user:nobody" = None
  ∧ DELETE_users sample_Number_toString "nobody" sample_store
    = (Response 404 (Some (VObj {[ "error" := VStr "User not found" ]})), sample_store).
Proof.
  cbv zeta.
  destruct (delete_user_removes_both_records sample_Number_toString
    sample_store "employee-001") as [Hfound _].
  destruct (delete_user_removes_both_records sample_Number_toString
    sample_store "nobody") as [_ Hmissing].
  specialize (Hfound sample_employee "employee@company.com" eq_refl eq_refl eq_refl).
  cbv zeta in Hfound.
  destruct Hfound as (Hrun & Hprimary & Hemail & Hlookup & _).
  split_and!; [vm_compute; reflexivity..|vm_compute; by eexists
              |by rewrite Hrun|exact Hprimary|exact Hemail| | |].
  - by rewrite Hlookup.
  - vm_compute; reflexivity.
  - apply Hmissing. vm_compute; reflexivity.
Defined.

Lemma inherited_name_defeats_default_witness :
  is_Some (conversionRates !! "USD")
  ∧ "constructor" ∈ Object_prototype_functions
  ∧ table_rate "USD" "constructor" = None
  ∧ Number.round2 5%float = 5%float
  ∧ convertedAmount sample_legacy sample_builtin_property "USD" "constructor" 5%float
    = Normal nan
  ∧ (GET_convert sample_legacy sample_builtin_property "USD" "constructor" 5%float ∅).1
    = Response 200 (Some (VObj (list_to_map
        [ ("originalAmount", VNum 5%float);
          ("convertedAmount", VNull);
          ("fromCurrency", VStr "USD");
          ("toCurrency", VStr "constructor") ]))).
Proof.
  destruct (inherited_name_defeats_default sample_legacy sample_builtin_property
    5%float "USD" "constructor" ∅) as (Htable & Hamount & Hrun).
  { vm_compute. by eexists. }
  { apply (bool_decide_unpack _). vm_compute. exact I. }
  split_and!; [vm_compute; by eexists|apply (bool_decide_unpack _); vm_compute; exact I
              |exact Htable|vm_compute; reflexivity|exact Hamount|by rewrite Hrun].
Defined.

(** C5, the claim as stated.  [POST /expenses] with the body [{amount: 120,
    currency: "USD", category: "Transportation", date: "2024-01-16"}] of the
    demo employee persists a pending expense with no
    [amount_in_company_currency] at all, where the conversion of 120 USD to
    USD is 120. *)
Lemma POST_expenses_does_not_convert :
  let result :=
    POST_expenses sample_Number_toString sample_toISOString (VObj sample_expenseData)
      1705363200000 1705363200000 1705363200001 1705363200001 sample_store in
  let persisted := result.2 !! "expense:expense-1705363200000" in
  result.1.(code) = 200
  ∧ property persisted "status" = Some (VStr "pending")
  ∧ property persisted "amount" = Some (VNum 120%float)
  ∧ property persisted "amount_in_company_currency" = None
  ∧ convertedAmount sample_legacy sample_builtin_property "USD" "USD" 120%float
    = Normal 120%float.
Proof. vm_compute. split_and!; reflexivity. Qed.

(** * More of the theorems at work *)

Lemma decide_on_served_store_witness :
  let calls :=
    [ Setup (SetupClock 0 0 0 0 0 0 0);
      SubmitExpense (VObj sample_expenseData) 1 1 2 2 ] in
  let kv := serve_all sample_Number_toString sample_toISOString calls ∅ in
  let result :=
    POST_approvals sample_Number_toString sample_toISOString "approval-2"
      (VObj (sample_decision "approved" "within policy")) 3 kv in
  kv !! "approval_step:approval-2"
    = Some (first_step sample_toISOString (VStr "manager-001") 1 2 2)
  ∧ result.1.(code) = 200
  ∧ property (result.2 !! "approval_step:approval-2") "status" = Some (VStr "approved")
  ∧ property (result.2 !! "expense:expense-1") "status" = Some (VStr "approved").
Proof.
  cbv zeta.
  destruct (decide_on_served_store sample_Number_toString sample_toISOString
    [ Setup (SetupClock 0 0 0 0 0 0 0);
      SubmitExpense (VObj sample_expenseData) 1 1 2 2 ]
    "approval-2" (first_step sample_toISOString (VStr "manager-001") 1 2 2)
    (VObj (sample_decision "approved" "within policy")) approved 3)
    as (Hcode & Hstep & expense_id & Hid & Hexpense); [vm_compute; reflexivity..|].
  injection Hid as <-.
  split_and!; [vm_compute; reflexivity|exact Hcode|exact Hstep|exact Hexpense].
Defined.

Lemma created_user_found_by_email_witness :
  let userData : gmap string value :=
    list_to_map [ ("name", VStr "Ann"); ("email", VStr "ann@company.com");
                  ("role", VStr "employee"); ("managerId", VStr "") ] in
  let created :=
    POST_users sample_Number_toString sample_toISOString (VObj userData) 7 8 sample_store in
  userData !! "email" = Some (VStr "ann@company.com")
  ∧ created.1.(code) = 200
  ∧ GET_user sample_Number_toString "ann@company.com" created.2
    = (Response 200 created.1.(body), created.2)
  ∧ property created.1.(body) "id" = Some (VStr "user-7").
Proof.
  cbv zeta.
  destruct (created_user_found_by_email sample_Number_toString sample_toISOString
    sample_store
    (list_to_map [ ("name", VStr "Ann"); ("email", VStr "ann@company.com");
                   ("role", VStr "employee"); ("managerId", VStr "") ])
    "ann@company.com" 7 8) as (Hcode & Hfound & _); [vm_compute; reflexivity|].
  split; [vm_compute; reflexivity|].
  split_and!; [exact Hcode|exact Hfound|vm_compute; reflexivity].
Defined.

Lemma create_then_delete_user_witness :
  let userData : gmap string value :=
    list_to_map [ ("name", VStr "Ann"); ("email", VStr "ann@company.com") ] in
  template sample_Number_toString (userData !! "email") = Normal "ann@company.com"
  ∧ sample_store !! "user:user-7" = None
  ∧ sample_store !! "user:email:ann@company.com" = None
  ∧ (POST_users sample_Number_toString sample_toISOString (VObj userData) 7 8
       sample_store).1.(code) = 200
  ∧ DELETE_users sample_Number_toString "user-7"
      (POST_users sample_Number_toString sample_toISOString (VObj userData) 7 8
         sample_store).2
    = (Response 200 (Some (VObj {[ "success" := VBool true ]})), sample_store).
Proof.
  cbv zeta. do 3 (split; [vm_compute; reflexivity|]).
  apply (create_then_delete_user sample_Number_toString sample_toISOString
    sample_store
    (list_to_map [ ("name", VStr "Ann"); ("email", VStr "ann@company.com") ])
    "ann@company.com" 7 8);
    vm_compute; reflexivity.
Defined.

Lemma unprintable_email_half_done_witness :
  let userData : gmap string value :=
    list_to_map [ ("name", VStr "Ann"); ("email", unprintable) ] in
  let created :=
    POST_users sample_Number_toString sample_toISOString (VObj userData) 7 8 sample_store in
  let deleted := DELETE_users sample_Number_toString "user-7" created.2 in
  template sample_Number_toString (userData !! "email") = Thrown
  ∧ sample_store !! "user:user-7" = None
  ∧ created.1.(code) = 500
  ∧ property (created.2 !! "user:user-7") "name" = Some (VStr "Ann")
  ∧ deleted.1.(code) = 500
  ∧ deleted.2 = sample_store.
Proof.
  cbv zeta.
  destruct (unprintable_email_half_done sample_Number_toString sample_toISOString
    sample_store (list_to_map [ ("name", VStr "Ann"); ("email", unprintable) ]) 7 8)
    as (Hcreated & _ & _ & _ & Hdeleted & _ & Hback); [vm_compute; reflexivity|].
  change ("user-" +:+ pretty 7) with "user-7" in Hdeleted, Hback.
  change ("user:" +:+ "user-7") with "user:user-7" in Hback.
  split_and!; [vm_compute; reflexivity|vm_compute; reflexivity|by rewrite Hcreated
              |vm_compute; reflexivity|by rewrite Hdeleted|].
  apply Hback. vm_compute; reflexivity.
Defined.

Lemma unparsable_amount_accepted_witness :
  let form := FormData nan "EUR" "Travel" "" "2024-01-16" in
  let result :=
    handleSubmit sample_Number_toString sample_toISOString sample_legacy
      sample_builtin_property (Some sample_employee) form VNull 1 1 2 2 sample_store in
  amount form = nan
  ∧ currency form ∈ currencies
  ∧ template sample_Number_toString (optional_id (Some sample_employee))
    = Normal "employee-001"
  ∧ result.1 = true
  ∧ property (result.2 !! "expense:expense-1") "amount" = Some VNull
  ∧ property (result.2 !! "expense:expense-1") "amount_in_company_currency" = Some VNull.
Proof.
  cbv zeta.
  destruct (unparsable_amount_accepted sample_Number_toString sample_toISOString
    sample_legacy sample_builtin_property
    sample_store "EUR" "USD" (Some sample_employee)
    (FormData nan "EUR" "Travel" "" "2024-01-16") VNull 1 1 2 2 eq_refl)
    as (_ & Hsubmitted & _ & Hamount & Hconverted).
  { apply (bool_decide_unpack _). vm_compute. exact I. }
  split_and!; [done|apply (bool_decide_unpack _); vm_compute; exact I|vm_compute; reflexivity
              | |exact Hamount|exact Hconverted].
  apply Hsubmitted. by exists "employee-001".
Defined.

Lemma decided_step_unlisted_witness :
  let calls :=
    [ Setup (SetupClock 0 0 0 0 0 0 0);
      SubmitExpense (VObj sample_expenseData) 1 1 2 2 ] in
  let kv := serve_all sample_Number_toString sample_toISOString calls ∅ in
  let step : gmap string value :=
    list_to_map
      [ ("id", VStr "approval-2"); ("expense_id", VStr "expense-1");
        ("approver_id", VStr "manager-001"); ("status", VStr "pending");
        ("sequence", VNum 1%float); ("created_at", VStr "2ms") ] in
  let reqBody := sample_decision "rejected" "duplicate" in
  let kv' :=
    (POST_approvals sample_Number_toString sample_toISOString "approval-2"
       (VObj reqBody) 3 kv).2 in
  kv !! "approval_step:approval-2" = Some (VObj step)
  ∧ reqBody !! "status" = Some (VStr (decision_name rejected))
  ∧ employees_printable sample_Number_toString kv
  ∧ kv' !! "approval_step:approval-2"
    = Some (decided sample_toISOString (VObj step) reqBody 3)
  ∧ (∃ entries,
       GET_approvals sample_Number_toString "manager-001" kv'
       = (Response 200 (Some (VArr entries)), kv'))
  ∧ (GET_approvals sample_Number_toString "manager-001" kv').1
    = Response 200 (Some (VArr [])).
Proof.
  cbv zeta.
  assert (Hprintable : employees_printable sample_Number_toString
    (serve_all sample_Number_toString sample_toISOString
       [ Setup (SetupClock 0 0 0 0 0 0 0);
         SubmitExpense (VObj sample_expenseData) 1 1 2 2 ] ∅)).
  { apply employees_printable_check. vm_compute. reflexivity. }
  destruct (decided_step_unlisted sample_Number_toString sample_toISOString
    (serve_all sample_Number_toString sample_toISOString
       [ Setup (SetupClock 0 0 0 0 0 0 0);
         SubmitExpense (VObj sample_expenseData) 1 1 2 2 ] ∅)
    "approval-2"
    (list_to_map
      [ ("id", VStr "approval-2"); ("expense_id", VStr "expense-1");
        ("approver_id", VStr "manager-001"); ("status", VStr "pending");
        ("sequence", VNum 1%float); ("created_at", VStr "2ms") ])
    (sample_decision "rejected" "duplicate") rejected 3 "manager-001")
    as (Hstored & _ & Hanswers); [vm_compute; reflexivity..|].
  split_and!; [vm_compute; reflexivity|vm_compute; reflexivity|exact Hprintable
              |exact Hstored| |vm_compute; reflexivity].
  exact (Hanswers (serve_all_consistent _ _ _ _ (consistent_empty _)) Hprintable).
Defined.

Lemma submitted_step_listed_witness :
  let kv :=
    serve_all sample_Number_toString sample_toISOString
      [ Setup (SetupClock 0 0 0 0 0 0 0) ] ∅ in
  let user :=
    VObj (list_to_map
      [ ("id", VStr "employee-001"); ("email", VStr "employee@company.com");
        ("name", VStr "Employee User"); ("role", VStr "employee");
        ("company_id", VStr "demo-company-001"); ("manager_id", VStr "manager-001");
        ("is_manager_approver", VBool false); ("created_at", VStr "0ms") ]) in
  let kv' :=
    (POST_expenses sample_Number_toString sample_toISOString (VObj sample_expenseData)
       1 1 2 2 kv).2 in
  employees_printable sample_Number_toString kv
  ∧ template sample_Number_toString (sample_expenseData !! "employee_id")
    = Normal "employee-001"
  ∧ kv !! "user:employee-001" = Some user
  ∧ own_property user "manager_id" = Some (VStr "manager-001")
  ∧ ∃ entries entry,
      GET_approvals sample_Number_toString "manager-001" kv'
      = (Response 200 (Some (VArr entries)), kv')
      ∧ entry ∈ entries
      ∧ own_property entry "id" = Some (VStr "approval-2")
      ∧ own_property entry "expense_id" = Some (VStr "expense-1")
      ∧ own_property entry "status" = Some (VStr "pending")
      ∧ property (own_property entry "expense") "status" = Some (VStr "pending")
      ∧ property (own_property entry "expense") "employee" = Some (json user).
Proof.
  cbv zeta.
  assert (Hprintable : employees_printable sample_Number_toString
    (serve_all sample_Number_toString sample_toISOString
       [ Setup (SetupClock 0 0 0 0 0 0 0) ] ∅)).
  { apply employees_printable_check. vm_compute. reflexivity. }
  split; [exact Hprintable|]. do 3 (split; [vm_compute; reflexivity|]).
  apply (submitted_step_listed sample_Number_toString sample_toISOString
    (serve_all sample_Number_toString sample_toISOString
       [ Setup (SetupClock 0 0 0 0 0 0 0) ] ∅)
    sample_expenseData "employee-001" _ "manager-001" 1 1 2 2);
    [apply serve_all_consistent, consistent_empty|exact Hprintable
    |vm_compute; reflexivity..].
Defined.

Lemma deleted_manager_still_assigned_witness :
  let kv' := (DELETE_users sample_Number_toString "manager-001" sample_store).2 in
  let result :=
    POST_expenses sample_Number_toString sample_toISOString (VObj sample_expenseData)
      1 1 2 2 kv' in
  sample_store !! "user:manager-001" = Some sample_manager
  ∧ sample_store !! "user:employee-001" = Some sample_employee
  ∧ own_property sample_employee "manager_id" = Some (VStr "manager-001")
  ∧ kv' !! "user:manager-001" = None
  ∧ result.1.(code) = 200
  ∧ property (result.2 !! "approval_step:approval-2") "approver_id"
    = Some (VStr "manager-001").
Proof.
  cbv zeta.
  destruct (deleted_manager_still_assigned sample_Number_toString sample_toISOString
    sample_store "manager-001" sample_manager sample_expenseData "employee-001"
    sample_employee 1 1 2 2) as (Hgone & Hcode & Hstep & Happrover);
    [vm_compute; reflexivity..|discriminate| |].
  { intros email Hemail. injection Hemail as <-. discriminate. }
  do 3 (split; [vm_compute; reflexivity|]).
  split_and!; [exact Hgone|exact Hcode|].
  change "approval_step:approval-2" with ("approval_step:" +:+ "approval-" +:+ pretty 2).
  rewrite Hstep. exact Happrover.
Defined.


